(** * is-it-vegan: the analysis relay and the media acquisition component

    A shallow embedding of the two pieces of code the specification talks
    about:

    - the route handler [POST] of the analysis relay (the [/api/analyze]
      route: payload check, MIME check, one call to the vision model, the
      catch-all error mapping);
    - the camera and upload handlers of [VeganAnalyzer] in
      [src/app/page.tsx] ([startCamera], [stopCamera],
      [handleCameraButtonClick], [capturePhoto], [handleImageUpload], the two
      effects).

    JavaScript values, exceptions and the few string methods the handlers
    use are modelled in [Module Js].  Everything the code reaches outside of
    itself (the model endpoint, the browser) is an explicit argument, and
    every call the code makes to it is recorded in a trace, so that "the
    model is never invoked" and "nothing touches a canvas" are statements
    about that trace. *)

From Stdlib Require Import String Ascii List Bool Arith ZArith Lia.
From Stdlib Require Import Floats.SpecFloat.
Import ListNotations.
Open Scope list_scope.
Open Scope string_scope.
Set Warnings "-register-all".

(* ===================================================================== *)
(** ** JavaScript values                                                  *)
(* ===================================================================== *)

Module Js.

(** A number is an IEEE 754 binary64 value; only its truthiness is ever
    inspected. *)
Definition number := spec_float.

(** The values [JSON.parse] can produce, plus [undefined], which is what a
    property read yields when the property is missing.  [Obj] lists the own
    properties of the object, each key once ([JSON.parse] has already kept
    the last of any duplicates). *)
Inductive value : Type :=
| Undefined
| Null
| Bool (b : bool)
| Number (x : number)
| Str (s : string)
| Arr (items : list value)
| Obj (props : list (string * value)).

(** What a [catch] clause can receive: an [Error] (or [DOMException]) with
    its [name] and [message], or some other object such as the [Event] that
    [video.onerror] hands to its listener. *)
Inductive thrown : Type :=
| Err (name message : string)
| NonError.

Definition Error (message : string) : thrown := Err "Error" message.
Definition TypeError (message : string) : thrown := Err "TypeError" message.

Definition error_name (e : thrown) : option string :=
  match e with Err n _ => Some n | NonError => None end.

Definition error_message (e : thrown) : option string :=
  match e with Err _ m => Some m | NonError => None end.

(** [ToBoolean]. *)
Definition truthy (v : value) : bool :=
  match v with
  | Undefined | Null => false
  | Bool b => b
  | Number (S754_zero _) | Number S754_nan => false
  | Number _ => true
  | Str s => negb (s =? "")
  | Arr _ | Obj _ => true
  end.

(** [ToString] inside a template literal or a [+] with a string, for a
    value that is a string or [undefined]. *)
Definition to_string (s : option string) : string :=
  match s with Some s => s | None => "undefined" end.

(** Own property lookup on the property list of an object. *)
Fixpoint lookup (key : string) (props : list (string * value)) : option value :=
  match props with
  | [] => None
  | (k, v) :: rest => if k =? key then Some v else lookup key rest
  end.

(** [v.image] for a value that came out of [JSON.parse]: only an object can
    carry the property; on a primitive or an array the read falls through to
    the prototype, which has no such property. *)
Definition get (v : value) (key : string) : value :=
  match v with
  | Obj props => match lookup key props with Some x => x | None => Undefined end
  | _ => Undefined
  end.

(** [const { image } = v]: destructuring [null] or [undefined] throws. *)
Definition destructure (v : value) (key : string) : thrown + value :=
  match v with
  | Undefined => inl (TypeError "Cannot destructure property of undefined")
  | Null => inl (TypeError "Cannot destructure property of null")
  | _ => inr (get v key)
  end.

(** [s.split(sep)] for a one-character separator.  The result is never
    empty: [''.split(';')] is [['']]. *)
Fixpoint split (sep : ascii) (s : string) : list string :=
  match s with
  | EmptyString => [EmptyString]
  | String c rest =>
      if Ascii.eqb c sep then EmptyString :: split sep rest
      else match split sep rest with
           | [] => [String c EmptyString]
           | piece :: pieces => String c piece :: pieces
           end
  end.

(** [arr.join(sep)]. *)
Fixpoint join (sep : string) (arr : list string) : string :=
  match arr with
  | [] => ""
  | [x] => x
  | x :: rest => x ++ sep ++ join sep rest
  end.

(** [arr.includes(x)] on an array of strings, for [x] a string or
    [undefined]. *)
Definition includes (arr : list string) (x : option string) : bool :=
  match x with
  | Some s => existsb (String.eqb s) arr
  | None => false
  end.

(** [s.startsWith(p)]. *)
Definition startsWith (s p : string) : bool := String.prefix p s.

(** The character occurs in the string. *)
Fixpoint has_char (c : ascii) (s : string) : bool :=
  match s with
  | EmptyString => false
  | String c' rest => Ascii.eqb c' c || has_char c rest
  end.

(** Substring test, used to read requirements off the fixed prompt. *)
Fixpoint mentions (s needle : string) : bool :=
  String.prefix needle s ||
  match s with
  | EmptyString => false
  | String _ rest => mentions rest needle
  end.

End Js.

(* ===================================================================== *)
(** ** The analysis relay: [POST /api/analyze]                            *)
(* ===================================================================== *)

Module Route.
Import Js.

Definition SUPPORTED_FORMATS : list string :=
  ["image/png"; "image/jpeg"; "image/gif"; "image/webp"].

(** The argument of [openai.chat.completions.create]. *)
Inductive ContentPart : Type :=
| text_part (text : string)
| image_url_part (url : string).

Record ChatMessage := { role : string; content : list ContentPart }.

Record ChatRequest := {
  model : string;
  messages : list ChatMessage;
  max_tokens : nat
}.

(** What the call resolves to: [choices[i].message.content] is
    [string | null]. *)
Record Choice := { message_content : option string }.
Record ChatCompletion := { choices : list Choice }.

(** The model endpoint: a call either rejects or resolves. *)
Definition OpenAI := ChatRequest -> thrown + ChatCompletion.

(** The incoming request, as far as the handler looks at it:
    [await request.json()] either rejects (the body is not JSON) or
    resolves to the parsed value. *)
Record Request := { json : thrown + value }.

(** [NextResponse.json(body, { status })]. *)
Record Response := { status : nat; body : value }.

Definition NextResponse_json (body : value) (status : nat) : Response :=
  {| status := status; body := body |}.

(** What the handler does to the outside world. *)
Inductive Effect : Type :=
| ModelCall (req : ChatRequest)
| ConsoleError (label : string) (cause : thrown).

(** Exceptions plus a trace of effects, oldest first. *)
Definition M (A : Type) : Type := list Effect * (thrown + A).

Definition ret {A} (a : A) : M A := ([], inr a).
Definition throw {A} (e : thrown) : M A := ([], inl e).
Definition emit (ev : Effect) : M unit := ([ev], inr tt).

Definition bind {A B} (m : M A) (k : A -> M B) : M B :=
  match m with
  | (tr, inl e) => (tr, inl e)
  | (tr, inr a) => let '(tr', r) := k a in ((tr ++ tr')%list, r)
  end.

(** [await p] / a throwing expression: lift an outcome. *)
Definition await {A} (r : thrown + A) : M A := ([], r).

(** [try { body } catch (error) { handler }] where the handler cannot
    throw. *)
Definition try_catch {A} (m : M A) (handler : thrown -> list Effect * A)
  : list Effect * A :=
  match m with
  | (tr, inr a) => (tr, a)
  | (tr, inl e) => let '(tr', a) := handler e in ((tr ++ tr')%list, a)
  end.

Notation "x <- m ;; k" := (bind m (fun x => k))
  (at level 61, m at next level, right associativity).
Notation "m ;;; k" := (bind m (fun _ => k))
  (at level 61, right associativity).

(** [image.split(sep)]: only a string has the method; on any other truthy
    JSON value [image.split] is not a function. *)
Definition call_split (image : value) (sep : ascii) : M (list string) :=
  match image with
  | Str s => ret (split sep s)
  | _ => throw (TypeError "image.split is not a function")
  end.

(** [arr[i].split(sep)]: the call throws when [arr[i]] is [undefined]. *)
Definition split_of (piece : option string) (sep : ascii) : M (list string) :=
  match piece with
  | Some s => ret (split sep s)
  | None => throw (TypeError "Cannot read properties of undefined (reading 'split')")
  end.

Definition PROMPT : string :=
  "Analyze this product image and tell me if it's vegan. Consider ingredients, certifications, and any visible labels. Respond with a clear 'Yes' or 'No' followed by a brief explanation. If you are not able to read the image content please be clear about it and the only thing you should say it's to take the photo again. The answer should always be in brazilian portuguese".

(** The argument built at [openai.chat.completions.create({ ... })]. *)
Definition analysis_request (mimeType : option string) (base64Image : option string)
  : ChatRequest :=
  {| model := "gpt-4o";
     messages :=
       [ {| role := "user";
            content :=
              [ text_part PROMPT;
                image_url_part
                  ("data:" ++ to_string mimeType ++ ";base64," ++ to_string base64Image) ] |} ];
     max_tokens := 300 |}.

Definition missing_input : Response :=
  NextResponse_json (Obj [("error", Str "No image provided")]) 400.

Definition unsupported_format : Response :=
  NextResponse_json
    (Obj [("error",
           Str ("Unsupported image format. Please use one of: "
                ++ join ", " SUPPORTED_FORMATS))]) 400.

Definition analysis_failed : Response :=
  NextResponse_json (Obj [("error", Str "Failed to analyze image")]) 500.

(** [response.choices[0].message.content]. *)
Definition first_content (response : ChatCompletion) : M (option string) :=
  match nth_error (choices response) 0 with
  | Some choice => ret (message_content choice)
  | None => throw (TypeError "Cannot read properties of undefined (reading 'message')")
  end.

Definition result_body (content : option string) : value :=
  Obj [("result", match content with Some s => Str s | None => Null end)].

(** The body of the [try] block. *)
Definition POST_try (openai : OpenAI) (request : Request) : M Response :=
  parsed <- await (json request) ;;
  image <- await (destructure parsed "image") ;;
  if negb (truthy image) then
    ret missing_input
  else
    (* Extract the MIME type from the data URL *)
    by_semicolon <- call_split image ";" ;;
    by_colon <- split_of (nth_error by_semicolon 0) ":" ;;
    let mimeType := nth_error by_colon 1 in
    if negb (includes SUPPORTED_FORMATS mimeType) then
      ret unsupported_format
    else
      (* Remove the data URL prefix *)
      by_comma <- call_split image "," ;;
      let base64Image := nth_error by_comma 1 in
      let req := analysis_request mimeType base64Image in
      emit (ModelCall req) ;;;
      response <- await (openai req) ;;
      content <- first_content response ;;
      ret (NextResponse_json (result_body content) 200).

Definition POST (openai : OpenAI) (request : Request) : list Effect * Response :=
  try_catch (POST_try openai request)
    (fun error => ([ConsoleError "Error analyzing image:" error], analysis_failed)).

(** How often the model was invoked in a trace. *)
Definition is_model_call (ev : Effect) : bool :=
  match ev with ModelCall _ => true | ConsoleError _ _ => false end.

Definition model_calls (tr : list Effect) : nat :=
  length (filter is_model_call tr).

(** The MIME type the handler reads off a data URI. *)
Definition mimeType_of (image : string) : option string :=
  match nth_error (split ";" image) 0 with
  | Some head => nth_error (split ":" head) 1
  | None => None
  end.

Definition base64_of (image : string) : option string :=
  nth_error (split "," image) 1.

End Route.

(* ===================================================================== *)
(** ** The media acquisition component: [VeganAnalyzer]                   *)
(* ===================================================================== *)

(** The component is asynchronous: [startCamera] has two [await]s and
    [handleImageUpload] two callbacks, and clicks can arrive in between.
    Each handler is therefore cut at its suspension points into functions
    from world to world, and [step] plays one event (a click, or the browser
    settling a promise or firing a callback) followed by the render it
    causes.  The [console.log] and [console.error] lines of the component
    change nothing and are left out; [analyzeImage], the only code of the
    page that uses the network, has a module of its own, [Analyze]. *)

Module Page.
Import Js.

Definition SUPPORTED_FORMATS : list string :=
  ["image/png"; "image/jpeg"; "image/gif"; "image/webp"].

(** *** Browser objects *)

Record MediaStreamTrack := { track_id : nat; kind : string }.

Record MediaStream := {
  stream_id : nat;
  getTracks : list MediaStreamTrack;
  frame_width : nat;
  frame_height : nat
}.

(** The [<video>] element.  [listener] is the [startCamera] invocation whose
    promise the element's [onloadedmetadata] and [onerror] currently
    settle. *)
Record HTMLVideoElement := {
  video_id : nat;
  srcObject : option MediaStream;
  videoWidth : nat;
  videoHeight : nat;
  listener : option nat
}.

(** An element made by [new window.Image()], once loaded.  It carries no
    [width] or [height] attribute and is never laid out, so [img.width] and
    [img.height] are its natural dimensions. *)
Record HTMLImageElement := {
  src : string;
  naturalWidth : nat;
  naturalHeight : nat
}.

Definition img_width (img : HTMLImageElement) : nat := naturalWidth img.
Definition img_height (img : HTMLImageElement) : nat := naturalHeight img.

Record File := { file_name : string; file_type : string; file_bytes : string }.

Inductive CanvasImageSource : Type :=
| video_frame (video : HTMLVideoElement)
| picture (img : HTMLImageElement).

(** A canvas with what has been drawn on it and where. *)
Record HTMLCanvasElement := {
  width : nat;
  height : nat;
  drawn : list (CanvasImageSource * nat * nat)
}.

(** [document.createElement('canvas')]: 300 by 150 and blank. *)
Definition new_canvas : HTMLCanvasElement :=
  {| width := 300; height := 150; drawn := [] |}.

(** [canvas.width = n] and [canvas.height = n] also clear the bitmap. *)
Definition set_width (n : nat) (c : HTMLCanvasElement) : HTMLCanvasElement :=
  {| width := n; height := height c; drawn := [] |}.
Definition set_height (n : nat) (c : HTMLCanvasElement) : HTMLCanvasElement :=
  {| width := width c; height := n; drawn := [] |}.

(** [ctx.drawImage(source, dx, dy)]. *)
Definition drawImage (c : HTMLCanvasElement) (source : CanvasImageSource) (dx dy : nat)
  : HTMLCanvasElement :=
  {| width := width c; height := height c; drawn := (drawn c ++ [(source, dx, dy)])%list |}.

Record MediaStreamConstraints := {
  facingMode_ideal : string;
  width_ideal : nat;
  height_ideal : nat
}.

(** What the component asks of the browser synchronously. *)
Record Browser := {
  (** [navigator.mediaDevices && navigator.mediaDevices.getUserMedia] *)
  has_getUserMedia : bool;
  (** [canvas.getContext('2d')] is not [null] *)
  getContext_2d : HTMLCanvasElement -> bool;
  (** [canvas.toDataURL(type)] *)
  toDataURL : HTMLCanvasElement -> string -> string
}.

(** The calls the component makes to the browser, recorded oldest first. *)
Inductive Call : Type :=
| getUserMedia (constraints : MediaStreamConstraints)
| track_stop (track : MediaStreamTrack)
| createElement (tag : string)
| readAsDataURL (file : File)
| new_Image (src : string).

(** *** Component state *)

(** The [useState] cells. *)
Record State := {
  image : option string;
  loading : bool;
  result : option string;
  error : option string;
  showCamera : bool;
  cameraError : option string
}.

(** A suspended piece of the component's code, with the local variables it
    goes on with. *)
Inductive Task : Type :=
| AwaitGetUserMedia
| AwaitPlay (stream : MediaStream) (video : nat)
| AwaitReader (file : File)
| AwaitImage (src : string).

(** The component instance: the [useState] cells, [videoRef.current] and
    [streamRef.current], the suspended tasks, and the record of what has
    been asked of the browser and what it has handed out. *)
Record World := {
  state : State;
  videoRef : option HTMLVideoElement;
  streamRef : option MediaStream;
  mounted : bool;
  pending : list (nat * Task);
  next_task : nat;
  next_video : nat;
  calls : list Call;
  acquired : list MediaStream
}.

Definition initial : World :=
  {| state := {| image := None; loading := false; result := None; error := None;
                 showCamera := false; cameraError := None |};
     videoRef := None; streamRef := None; mounted := true;
     pending := []; next_task := 0; next_video := 0; calls := []; acquired := [] |}.

Definition update_state (f : State -> State) (w : World) : World :=
  {| state := f (state w); videoRef := videoRef w; streamRef := streamRef w;
     mounted := mounted w; pending := pending w; next_task := next_task w; next_video := next_video w;
     calls := calls w; acquired := acquired w |}.

Definition setImage (v : option string) : World -> World :=
  update_state (fun s =>
    {| image := v; loading := loading s; result := result s; error := error s;
       showCamera := showCamera s; cameraError := cameraError s |}).

Definition setResult (v : option string) : World -> World :=
  update_state (fun s =>
    {| image := image s; loading := loading s; result := v; error := error s;
       showCamera := showCamera s; cameraError := cameraError s |}).

Definition setError (v : option string) : World -> World :=
  update_state (fun s =>
    {| image := image s; loading := loading s; result := result s; error := v;
       showCamera := showCamera s; cameraError := cameraError s |}).

Definition setShowCamera (v : bool) : World -> World :=
  update_state (fun s =>
    {| image := image s; loading := loading s; result := result s; error := error s;
       showCamera := v; cameraError := cameraError s |}).

Definition setCameraError (v : option string) : World -> World :=
  update_state (fun s =>
    {| image := image s; loading := loading s; result := result s; error := error s;
       showCamera := showCamera s; cameraError := v |}).

Definition set_videoRef (v : option HTMLVideoElement) (w : World) : World :=
  {| state := state w; videoRef := v; streamRef := streamRef w;
     mounted := mounted w; pending := pending w; next_task := next_task w; next_video := next_video w;
     calls := calls w; acquired := acquired w |}.

Definition set_streamRef (v : option MediaStream) (w : World) : World :=
  {| state := state w; videoRef := videoRef w; streamRef := v;
     mounted := mounted w; pending := pending w; next_task := next_task w; next_video := next_video w;
     calls := calls w; acquired := acquired w |}.

Definition set_mounted (v : bool) (w : World) : World :=
  {| state := state w; videoRef := videoRef w; streamRef := streamRef w;
     mounted := v; pending := pending w; next_task := next_task w; next_video := next_video w;
     calls := calls w; acquired := acquired w |}.

Definition set_pending (v : list (nat * Task)) (w : World) : World :=
  {| state := state w; videoRef := videoRef w; streamRef := streamRef w;
     mounted := mounted w; pending := v; next_task := next_task w; next_video := next_video w;
     calls := calls w; acquired := acquired w |}.

Definition set_next_task (v : nat) (w : World) : World :=
  {| state := state w; videoRef := videoRef w; streamRef := streamRef w;
     mounted := mounted w; pending := pending w; next_task := v;
     next_video := next_video w; calls := calls w; acquired := acquired w |}.

Definition set_next_video (v : nat) (w : World) : World :=
  {| state := state w; videoRef := videoRef w; streamRef := streamRef w;
     mounted := mounted w; pending := pending w; next_task := next_task w;
     next_video := v; calls := calls w; acquired := acquired w |}.

Definition record_call (c : Call) (w : World) : World :=
  {| state := state w; videoRef := videoRef w; streamRef := streamRef w;
     mounted := mounted w; pending := pending w; next_task := next_task w; next_video := next_video w;
     calls := (calls w ++ [c])%list; acquired := acquired w |}.

Definition record_acquired (s : MediaStream) (w : World) : World :=
  {| state := state w; videoRef := videoRef w; streamRef := streamRef w;
     mounted := mounted w; pending := pending w; next_task := next_task w; next_video := next_video w;
     calls := calls w; acquired := (acquired w ++ [s])%list |}.

(** [video.srcObject = v]. *)
Definition set_srcObject (v : option MediaStream) (video : HTMLVideoElement)
  : HTMLVideoElement :=
  {| video_id := video_id video; srcObject := v;
     videoWidth := videoWidth video; videoHeight := videoHeight video;
     listener := listener video |}.

(** [video.onloadedmetadata = ...; video.onerror = ...] by invocation [id]. *)
Definition set_listener (id : nat) (video : HTMLVideoElement) : HTMLVideoElement :=
  {| video_id := video_id video; srcObject := srcObject video;
     videoWidth := videoWidth video; videoHeight := videoHeight video;
     listener := Some id |}.

(** Suspend under a new task id, or again under the id the invocation
    already has. *)
Definition spawn (t : Task) (w : World) : World :=
  set_next_task (S (next_task w)) (set_pending (pending w ++ [(next_task w, t)])%list w).

Definition suspend (id : nat) (t : Task) (w : World) : World :=
  set_pending (pending w ++ [(id, t)])%list w.

Section Component.

Variable browser : Browser.

(** *** [startCamera] (page.tsx 36-96), cut at its two [await]s *)

Definition constraints : MediaStreamConstraints :=
  {| facingMode_ideal := "environment"; width_ideal := 1920; height_ideal := 1080 |}.

Definition name_is (err : thrown) (name : string) : bool :=
  match error_name err with
  | Some n => n =? name
  | None => false
  end.

(** The [catch] block. *)
Definition startCamera_catch (err : thrown) (w : World) : World :=
  let errorMessage := "Não foi possível acessar a câmera. " in
  let errorMessage :=
    if name_is err "NotAllowedError" then
      errorMessage ++ "Por favor, certifique-se de que você concedeu permissões para a câmera."
    else if name_is err "NotFoundError" then
      errorMessage ++ "Nenhuma câmera encontrada no seu dispositivo."
    else if name_is err "NotReadableError" then
      errorMessage ++ "A câmera já está em uso por outro aplicativo."
    else
      errorMessage ++ to_string (error_message err) in
  setShowCamera false (setCameraError (Some errorMessage) w).

(** From the call up to [await navigator.mediaDevices.getUserMedia(...)]. *)
Definition startCamera (w : World) : World :=
  let w := setError None (setCameraError None w) in
  if negb (has_getUserMedia browser) then
    startCamera_catch (Error "API de câmera não disponível neste navegador") w
  else
    spawn AwaitGetUserMedia (record_call (getUserMedia constraints) w).

(** From the settled [getUserMedia] promise up to [await new Promise(...)]. *)
Definition startCamera_with_stream (id : nat) (outcome : thrown + MediaStream) (w : World)
  : World :=
  match outcome with
  | inl err => startCamera_catch err w
  | inr stream =>
      match videoRef w with
      | None => startCamera_catch (Error "Elemento de vídeo não encontrado") w
      | Some video =>
          let video := set_listener id (set_srcObject (Some stream) video) in
          suspend id (AwaitPlay stream (video_id video)) (set_videoRef (Some video) w)
      end
  end.

(** From the settled metadata-and-play promise to the end;
    [None] is [resolve(true)]. *)
Definition startCamera_playing (stream : MediaStream) (outcome : option thrown) (w : World)
  : World :=
  match outcome with
  | Some err => startCamera_catch err w
  | None => set_streamRef (Some stream) w
  end.

(** *** [stopCamera] (page.tsx 98-111) *)

(** [stream.getTracks().forEach(track => track.stop())]. *)
Definition stop_tracks (stream : MediaStream) (w : World) : World :=
  fold_left (fun w track => record_call (track_stop track) w) (getTracks stream) w.

Definition stopCamera (w : World) : World :=
  let w :=
    match streamRef w with
    | Some stream => set_streamRef None (stop_tracks stream w)
    | None => w
    end in
  let w :=
    match videoRef w with
    | Some video => set_videoRef (Some (set_srcObject None video)) w
    | None => w
    end in
  setCameraError None (setShowCamera false w).

(** *** [handleCameraButtonClick] (page.tsx 113-119) *)

Definition handleCameraButtonClick (w : World) : World :=
  if showCamera (state w) then stopCamera w else setShowCamera true w.

(** *** [capturePhoto] (page.tsx 121-148) *)

Definition capturePhoto_catch (err : thrown) (w : World) : World :=
  setError (Some ("Falha ao capturar foto: " ++ to_string (error_message err))) w.

Definition capturePhoto (w : World) : World :=
  match videoRef w, streamRef w with
  | Some video, Some _ =>
      let canvas := new_canvas in
      let w := record_call (createElement "canvas") w in
      let canvas := set_width (videoWidth video) canvas in
      let canvas := set_height (videoHeight video) canvas in
      if negb (getContext_2d browser canvas) then
        capturePhoto_catch (Error "Não foi possível obter o contexto do canvas") w
      else
        let canvas := drawImage canvas (video_frame video) 0 0 in
        let imageData := toDataURL browser canvas "image/png" in
        stopCamera (setImage (Some imageData) w)
  | _, _ => setError (Some "Câmera não está pronta") w
  end.

(** *** [handleImageUpload] (page.tsx 150-184), cut at its two callbacks *)

(** Up to [reader.readAsDataURL(file)]. *)
Definition handleImageUpload (file : option File) (w : World) : World :=
  match file with
  | Some file =>
      if negb (startsWith (file_type file) "image/") then
        setError (Some "Por favor, envie um arquivo de imagem") w
      else if negb (includes SUPPORTED_FORMATS (Some (file_type file))) then
        setError
          (Some ("Formato de imagem não suportado. Por favor, use um dos seguintes: "
                 ++ join ", " SUPPORTED_FORMATS)) w
      else
        spawn (AwaitReader file) (record_call (readAsDataURL file) w)
  | None => w
  end.

(** [reader.onloadend]: [reader.result] is the data URL, or [null] when the
    read failed, and [img.src = null] sets the attribute to ["null"]. *)
Definition reader_onloadend (id : nat) (reader_result : option string) (w : World) : World :=
  let src := match reader_result with Some url => url | None => "null" end in
  suspend id (AwaitImage src) (record_call (new_Image src) w).

(** [img.onload]. *)
Definition img_onload (img : HTMLImageElement) (w : World) : World :=
  let canvas := new_canvas in
  let w := record_call (createElement "canvas") w in
  let canvas := set_width (img_width img) canvas in
  let canvas := set_height (img_height img) canvas in
  if getContext_2d browser canvas then
    let canvas := drawImage canvas (picture img) 0 0 in
    (* Convert to PNG format for better quality *)
    let imageData := toDataURL browser canvas "image/png" in
    setError None (setResult None (setImage (Some imageData) w))
  else w.

(** *** The effects (page.tsx 19-34) *)

Definition is_null {A} (x : option A) : bool :=
  match x with Some _ => false | None => true end.

(** [useEffect(() => { if (showCamera && !streamRef.current) startCamera() }, [showCamera])]. *)
Definition camera_effect (w : World) : World :=
  if showCamera (state w) && is_null (streamRef w) then startCamera w else w.

(** The cleanup returned by the second effect. *)
Definition cleanup (w : World) : World :=
  match streamRef w with
  | Some stream => set_streamRef None (stop_tracks stream w)
  | None => w
  end.

(** *** React and the event loop *)

(** [{showCamera && (... <video ref={videoRef} ... /> ...)}]: a commit
    attaches a new element to [videoRef] when the overlay appears and
    resets the ref to [null] when it goes. *)
Definition commit (w : World) : World :=
  if negb (mounted w) then w
  else if showCamera (state w) then
    match videoRef w with
    | Some _ => w
    | None =>
        set_next_video (S (next_video w))
          (set_videoRef
             (Some {| video_id := next_video w; srcObject := None;
                      videoWidth := 0; videoHeight := 0; listener := None |}) w)
    end
  else set_videoRef None w.

(** The render that follows a handler or a resumed task: commit, then the
    camera effect if [showCamera] changed, then the render that the effect's
    own state updates cause (which sees [showCamera] unchanged or back to
    [false]). *)
Definition render (before w : World) : World :=
  let w := commit w in
  if negb (mounted w) then w
  else if Bool.eqb (showCamera (state before)) (showCamera (state w)) then w
  else commit (camera_effect w).

Definition unmount_component (w : World) : World :=
  set_mounted false (set_videoRef None (cleanup w)).

(** What can happen to the component: the user's clicks and the browser's
    callbacks, each with what the browser reports. *)
Inductive Event : Type :=
| click_camera_button
| click_capture
| click_cancel
| change_file_input (file : option File)
| getUserMedia_settles (task : nat) (outcome : thrown + MediaStream)
| play_settles (task : nat) (outcome : option thrown)
| reader_loadend (task : nat) (reader_result : option string)
| img_load (task : nat) (naturalWidth naturalHeight : nat)
| unmount.

Fixpoint find_task (id : nat) (tasks : list (nat * Task)) : option Task :=
  match tasks with
  | [] => None
  | (k, t) :: rest => if k =? id then Some t else find_task id rest
  end%nat.

Definition remove_task (id : nat) (tasks : list (nat * Task)) : list (nat * Task) :=
  filter (fun kt => negb (fst kt =? id)%nat) tasks.

Definition is_acquired (s : MediaStream) (w : World) : bool :=
  existsb (fun s' => (stream_id s' =? stream_id s)%nat) (acquired w).

(** The element on which invocation [id] put its listeners is still the
    mounted one, still has them and still shows the invocation's stream. *)
Definition listens (id video : nat) (stream : MediaStream) (w : World) : bool :=
  match videoRef w with
  | Some v =>
      (video_id v =? video)%nat
      && match listener v with Some k => (k =? id)%nat | None => false end
      && match srcObject v with
         | Some s => (stream_id s =? stream_id stream)%nat
         | None => false
         end
  | None => false
  end.

(** The element has read the stream's metadata. *)
Definition loadedmetadata (stream : MediaStream) (w : World) : World :=
  match videoRef w with
  | Some v =>
      set_videoRef
        (Some {| video_id := video_id v; srcObject := srcObject v;
                 videoWidth := frame_width stream; videoHeight := frame_height stream;
                 listener := listener v |}) w
  | None => w
  end.

(** One turn of the event loop.  A settlement is accepted for every
    promise that is pending: [step] says what the page does when the
    browser settles it, not when the browser does so.  In particular the
    metadata-and-play promise of [startCamera] can settle after the overlay
    was closed or the component unmounted, because the closure keeps the
    element, [resolve] and [reject]; the mounted element takes the size of
    the stream only when it is the one that loaded it.  [None] is for what
    cannot happen: a click on a button that is not rendered, the settlement
    of a promise that is not pending, a stream handed out twice, a second
    unmount. *)
Definition step (ev : Event) (w : World) : option World :=
  match ev with
  | click_camera_button =>
      if mounted w then Some (render w (handleCameraButtonClick w)) else None
  | click_capture =>
      if mounted w && showCamera (state w) then Some (render w (capturePhoto w)) else None
  | click_cancel =>
      if mounted w && showCamera (state w) then Some (render w (stopCamera w)) else None
  | change_file_input file =>
      if mounted w then Some (render w (handleImageUpload file w)) else None
  | getUserMedia_settles id outcome =>
      match find_task id (pending w) with
      | Some AwaitGetUserMedia =>
          let w' := set_pending (remove_task id (pending w)) w in
          match outcome with
          | inr stream =>
              if is_acquired stream w then None
              else Some (render w (startCamera_with_stream id outcome
                                     (record_acquired stream w')))
          | inl _ => Some (render w (startCamera_with_stream id outcome w'))
          end
      | _ => None
      end
  | play_settles id outcome =>
      match find_task id (pending w) with
      | Some (AwaitPlay stream video) =>
          let w' := set_pending (remove_task id (pending w)) w in
          let w' := match outcome with
                    | None =>
                        if listens id video stream w then loadedmetadata stream w'
                        else w'
                    | Some _ => w'
                    end in
          Some (render w (startCamera_playing stream outcome w'))
      | _ => None
      end
  | reader_loadend id reader_result =>
      match find_task id (pending w) with
      | Some (AwaitReader _) =>
          Some (render w (reader_onloadend id reader_result
                            (set_pending (remove_task id (pending w)) w)))
      | _ => None
      end
  | img_load id nw nh =>
      match find_task id (pending w) with
      | Some (AwaitImage src) =>
          Some (render w (img_onload {| src := src; naturalWidth := nw; naturalHeight := nh |}
                            (set_pending (remove_task id (pending w)) w)))
      | _ => None
      end
  | unmount =>
      if mounted w then Some (unmount_component w) else None
  end.

Fixpoint run (evs : list Event) (w : World) : option World :=
  match evs with
  | [] => Some w
  | ev :: rest =>
      match step ev w with
      | Some w' => run rest w'
      | None => None
      end
  end.

End Component.

(** *** What the device sees *)

(** [track.stop()] has been called on the track. *)
Definition stopped (w : World) (track : MediaStreamTrack) : bool :=
  existsb (fun c => match c with
                    | track_stop t => (track_id t =? track_id track)%nat
                    | _ => false
                    end) (calls w).

(** A stream keeps the camera busy until every one of its tracks is
    stopped. *)
Definition live (w : World) (stream : MediaStream) : bool :=
  negb (forallb (stopped w) (getTracks stream)).

Definition live_streams (w : World) : list MediaStream :=
  filter (live w) (acquired w).

(** What the HTML Standard asks of [toDataURL('image/png')] on a canvas
    that has pixels: a PNG data URL (PNG support is required; a canvas
    without pixels gives ["data:,"]). *)
Definition serialises_png (browser : Browser) : Prop :=
  forall canvas : HTMLCanvasElement,
    0 < width canvas -> 0 < height canvas ->
    startsWith (toDataURL browser canvas "image/png") "data:image/png;base64," = true.

End Page.

(* ===================================================================== *)
(** ** Test doubles and concrete worlds                                   *)
(* ===================================================================== *)

Module Scenario.
Import Js Route Page.

(** A model endpoint that answers every request with one sentence. *)
Definition answering (text : string) : OpenAI :=
  fun _ => inr {| choices := [ {| message_content := Some text |} ] |}.

(** A model endpoint that is unreachable. *)
Definition unreachable : OpenAI :=
  fun _ => inl (Err "APIConnectionError" "Connection error.").

(** The number 1 as a binary64 value. *)
Definition one : number := S754_finite false 4503599627370496%positive (-52)%Z.

Definition post (image : value) : Request :=
  {| json := inr (Obj [("image", image)]) |}.

(** A browser with a camera API and a working 2D canvas.  Its
    [toDataURL] follows the HTML Standard: ["data:,"] for a canvas without
    pixels, a data URL of the requested type otherwise. *)
Definition desktop : Browser :=
  {| has_getUserMedia := true;
     getContext_2d := fun _ => true;
     toDataURL := fun c type =>
       if ((width c =? 0) || (height c =? 0))%nat then "data:,"
       else "data:" ++ type ++ ";base64,iVBORw0KGgo=" |}.

(** The same browser when no 2D context can be had. *)
Definition without_canvas : Browser :=
  {| has_getUserMedia := true;
     getContext_2d := fun _ => false;
     toDataURL := toDataURL desktop |}.

Definition camera_stream (id : nat) : MediaStream :=
  {| stream_id := id;
     getTracks := [ {| track_id := id; kind := "video" |} ];
     frame_width := 1920;
     frame_height := 1080 |}.

Definition jpeg_file : File :=
  {| file_name := "label.jpg"; file_type := "image/jpeg"; file_bytes := "" |}.

Definition renamed_text_file : File :=
  {| file_name := "notes.png"; file_type := "text/plain"; file_bytes := "contains milk" |}.

Definition bmp_file : File :=
  {| file_name := "label.bmp"; file_type := "image/bmp"; file_bytes := "BM" |}.

(** The overlay is open and [getUserMedia] has not answered yet. *)
Definition requesting : World :=
  {| state := {| image := None; loading := false; result := None; error := None;
                 showCamera := true; cameraError := None |};
     videoRef := Some {| video_id := 0; srcObject := None;
                         videoWidth := 0; videoHeight := 0; listener := None |};
     streamRef := None; mounted := true;
     pending := [(0, AwaitGetUserMedia)]; next_task := 1; next_video := 1;
     calls := [getUserMedia constraints]; acquired := [] |}.

(** The camera is running: stream 7 is attached and held. *)
Definition filming : World :=
  {| state := {| image := None; loading := false; result := None; error := None;
                 showCamera := true; cameraError := None |};
     videoRef := Some {| video_id := 0; srcObject := Some (camera_stream 7);
                         videoWidth := 1920; videoHeight := 1080; listener := Some 0 |};
     streamRef := Some (camera_stream 7); mounted := true;
     pending := []; next_task := 1; next_video := 1;
     calls := [getUserMedia constraints]; acquired := [camera_stream 7] |}.

(** Permission was refused: the overlay is closed and the message shows. *)
Definition refused : World :=
  {| state := {| image := None; loading := false; result := None; error := None;
                 showCamera := false;
                 cameraError := Some "Não foi possível acessar a câmera. Por favor, certifique-se de que você concedeu permissões para a câmera." |};
     videoRef := None; streamRef := None; mounted := true;
     pending := []; next_task := 1; next_video := 1;
     calls := [getUserMedia constraints]; acquired := [] |}.

Definition NotAllowedError : thrown := Err "NotAllowedError" "Permission denied".
Definition NotReadableError : thrown := Err "NotReadableError" "Could not start video source".

(** Open, cancel and reopen before the first [getUserMedia] has answered;
    then the first request is granted and its video starts, and the second
    request fails because the device is busy. *)
Definition overlapping_opens : list Event :=
  [ click_camera_button;
    click_cancel;
    click_camera_button;
    getUserMedia_settles 0 (inr (camera_stream 1));
    play_settles 0 None;
    getUserMedia_settles 1 (inl NotReadableError) ].

(** Open, capture, open again, cancel, each request answered before the
    next click. *)
Definition orderly_cycles : list Event :=
  [ click_camera_button;
    getUserMedia_settles 0 (inr (camera_stream 1));
    play_settles 0 None;
    click_capture;
    click_camera_button;
    getUserMedia_settles 1 (inr (camera_stream 2));
    play_settles 1 None;
    click_cancel ].

(** Open and cancel before [getUserMedia] has answered; then the request
    is granted. *)
Definition cancelled_open : list Event :=
  [ click_camera_button;
    click_cancel;
    getUserMedia_settles 0 (inr (camera_stream 1)) ].

(** Overlapping opens with both requests granted. *)
Definition overlapping_opens_granted : list Event :=
  [ click_camera_button;
    click_cancel;
    click_camera_button;
    getUserMedia_settles 0 (inr (camera_stream 1));
    play_settles 0 None;
    getUserMedia_settles 1 (inr (camera_stream 2));
    play_settles 1 None ].

End Scenario.

(* ===================================================================== *)
(** ** The analyze action of the page, and the page wired to the relay    *)
(* ===================================================================== *)

(** [analyzeImage] (page.tsx 186-213) talks to the relay with [fetch].  The
    response body is typed [any], so what it stores with [setResult] need
    not be a string: the handler is modelled by the [useState] setters it
    calls, in order and with their JavaScript arguments, and a [Session]
    keeps the content of the [result] cell as a JavaScript value beside the
    page. *)

Module Analyze.
Import Js Route Page.

(** The second argument of [fetch]; [payload] is the value given to
    [JSON.stringify]. *)
Record FetchRequest := {
  url : string;
  method : string;
  content_type : string;
  payload : value
}.

(** What [fetch] resolves to, as far as the handler looks at it:
    [response.ok] and what [response.json()] settles to. *)
Record FetchResponse := {
  ok : bool;
  response_json : thrown + value
}.

Inductive Update : Type :=
| SetLoading (v : bool)
| SetError (v : option string)
| SetResult (v : value).

(** [data.key]: reading a property of [null] or [undefined] throws. *)
Definition member (data : value) (key : string) : thrown + value :=
  match data with
  | Undefined =>
      inl (TypeError ("Cannot read properties of undefined (reading '" ++ key ++ "')"))
  | Null =>
      inl (TypeError ("Cannot read properties of null (reading '" ++ key ++ "')"))
  | _ => inr (get data key)
  end.

(** [image && ...] and [if (!image)] for a [string | null] cell. *)
Definition present (cell : option string) : bool :=
  match cell with
  | Some s => negb (s =? "")
  | None => false
  end.

Definition setLoading (v : bool) : World -> World :=
  update_state (fun s =>
    {| image := image s; loading := v; result := result s; error := error s;
       showCamera := showCamera s; cameraError := cameraError s |}).

(** The part of the page that starts the analysis (page.tsx 286-305):
    [{image && !showCamera && (... <button onClick={analyzeImage}
    disabled={loading}> ...)}].  [None] when the button is not rendered,
    otherwise whether it is disabled. *)
Definition analyze_button (s : State) : option bool :=
  if present (image s) && negb (showCamera s) then Some (loading s) else None.

(** Up to [await fetch(...)]: the request, if one is made, and the setters
    called before it. *)
Definition analyzeImage (w : World) : option FetchRequest * list Update :=
  match image (state w) with
  | Some image =>
      if image =? "" then (None, [])
      else
        (Some {| url := "/api/analyze";
                 method := "POST";
                 content_type := "application/json";
                 payload := Obj [("image", Str image)] |},
         [SetLoading true; SetError None])
  | None => (None, [])
  end.

Section Numbers.

(** [Number.prototype.toString]: the decimal text of a binary64 value. *)
Variable Number_toString : number -> string.

(** [ToString], as [new Error(message)] applies it to its argument.  An
    array is joined with commas, [null] and [undefined] elements giving the
    empty string; an object gives ["[object Object]"] unless it has a
    property of its own named [toString], which a parsed object can only
    hold as a value that cannot be called. *)
Fixpoint ToString (v : value) : thrown + string :=
  match v with
  | Undefined => inr "undefined"
  | Null => inr "null"
  | Bool b => inr (if b then "true" else "false")
  | Number x => inr (Number_toString x)
  | Str s => inr s
  | Arr items =>
      (fix join_items (items : list value) : thrown + string :=
         match items with
         | [] => inr ""
         | item :: rest =>
             match match item with
                   | Undefined | Null => inr ""
                   | _ => ToString item
                   end with
             | inl err => inl err
             | inr head =>
                 match rest with
                 | [] => inr head
                 | _ :: _ =>
                     match join_items rest with
                     | inl err => inl err
                     | inr tail => inr (head ++ "," ++ tail)
                     end
                 end
             end
         end) items
  | Obj props =>
      match lookup "toString" props with
      | Some _ => inl (TypeError "Cannot convert object to primitive value")
      | None => inr "[object Object]"
      end
  end.

(** The body of the [try] block from the settled [fetch] on: the value
    handed to [setResult], or what is thrown. *)
Definition analyzeImage_try (outcome : thrown + FetchResponse) : thrown + value :=
  match outcome with
  | inl err => inl err
  | inr response =>
      match response_json response with
      | inl err => inl err
      | inr data =>
          if negb (ok response) then
            match member data "error" with
            | inl err => inl err
            | inr error =>
                let message :=
                  if truthy error then error else Str "Falha ao analisar a imagem" in
                match ToString message with
                | inl err => inl err
                | inr text => inl (Error text)
                end
            end
          else member data "result"
      end
  end.

(** [catch (err) { setError(err instanceof Error ? err.message : ...) }]. *)
Definition analyzeImage_catch (err : thrown) : Update :=
  SetError (Some match err with
                 | Err _ message => message
                 | NonError => "Ocorreu um erro"
                 end).

(** The setters called once the request has settled.  Nothing is set
    between the two [await]s, so they are all called in the turn in which
    [fetch] rejects or [response.json()] settles. *)
Definition analyzeImage_settled (outcome : thrown + FetchResponse) : list Update :=
  match analyzeImage_try outcome with
  | inr result => [SetResult result; SetLoading false]
  | inl err => [analyzeImage_catch err; SetLoading false]
  end.

End Numbers.

(** *** The page together with its requests *)

(** The page with the requests it has sent.  [result_cell] is what the
    [result] cell holds, as a JavaScript value: the cell is declared
    [string | null], but [analyzeImage] stores in it whatever the response
    carried.  The [result] field of [page] is its reading at the declared
    type: the text when the cell holds a string, [null] otherwise. *)
Record Session := {
  page : World;
  result_cell : value;
  in_flight : list (nat * FetchRequest);
  next_request : nat
}.

Definition start : Session :=
  {| page := initial; result_cell := Null; in_flight := []; next_request := 0 |}.

Definition typed (v : value) : option string :=
  match v with
  | Str text => Some text
  | _ => None
  end.

(** Playing a setter on the page. *)
Definition call_setter (u : Update) (x : Session) : Session :=
  match u with
  | SetLoading v =>
      {| page := setLoading v (page x); result_cell := result_cell x;
         in_flight := in_flight x; next_request := next_request x |}
  | SetError v =>
      {| page := setError v (page x); result_cell := result_cell x;
         in_flight := in_flight x; next_request := next_request x |}
  | SetResult v =>
      {| page := setResult (typed v) (page x); result_cell := v;
         in_flight := in_flight x; next_request := next_request x |}
  end.

Definition call_setters (updates : list Update) (x : Session) : Session :=
  fold_left (fun x u => call_setter u x) updates x.

Inductive Action : Type :=
| on_page (ev : Event)
| click_analyze
| fetch_settles (id : nat) (outcome : thrown + FetchResponse).

Fixpoint find_request (id : nat) (requests : list (nat * FetchRequest))
  : option FetchRequest :=
  match requests with
  | [] => None
  | (k, r) :: rest => if (k =? id)%nat then Some r else find_request id rest
  end.

Definition remove_request (id : nat) (requests : list (nat * FetchRequest))
  : list (nat * FetchRequest) :=
  filter (fun kr => negb (fst kr =? id)%nat) requests.

Section Loop.

Variable browser : Browser.
Variable Number_toString : number -> string.

(** The one place where the camera and upload code stores into [result]:
    [img.onload], when it gets a 2D context, calls [setResult(null)]
    (page.tsx 171-176). *)
Definition stores_null_result (ev : Event) (w : World) : bool :=
  match ev with
  | img_load id nw nh =>
      match find_task id (pending w) with
      | Some (AwaitImage _) =>
          getContext_2d browser (set_height nh (set_width nw new_canvas))
      | _ => false
      end
  | _ => false
  end.

(** One turn of the event loop of the whole page.  The analyze button can
    only be clicked while it is rendered and enabled, and only a request
    that is in flight can settle; every answer to it is accepted. *)
Definition advance (a : Action) (x : Session) : option Session :=
  match a with
  | on_page ev =>
      match step browser ev (page x) with
      | Some w =>
          Some {| page := w;
                  result_cell :=
                    if stores_null_result ev (page x) then Null else result_cell x;
                  in_flight := in_flight x;
                  next_request := next_request x |}
      | None => None
      end
  | click_analyze =>
      if mounted (page x) then
        match analyze_button (state (page x)) with
        | Some false =>
            let '(request, updates) := analyzeImage (page x) in
            let y := call_setters updates x in
            Some {| page := render browser (page x) (page y);
                    result_cell := result_cell y;
                    in_flight :=
                      match request with
                      | Some r => (in_flight x ++ [(next_request x, r)])%list
                      | None => in_flight x
                      end;
                    next_request := S (next_request x) |}
        | _ => None
        end
      else None
  | fetch_settles id outcome =>
      match find_request id (in_flight x) with
      | Some _ =>
          let y := call_setters (analyzeImage_settled Number_toString outcome) x in
          Some {| page := render browser (page x) (page y);
                  result_cell := result_cell y;
                  in_flight := remove_request id (in_flight x);
                  next_request := next_request x |}
      | None => None
      end
  end.

Fixpoint play (actions : list Action) (x : Session) : option Session :=
  match actions with
  | [] => Some x
  | a :: rest =>
      match advance a x with
      | Some x' => play rest x'
      | None => None
      end
  end.

End Loop.

(** The sessions in which at most one request is in flight, and [loading]
    is set while there is one. *)
Definition one_at_a_time (x : Session) : Prop :=
  in_flight x = []
  \/ exists id request,
       in_flight x = [(id, request)] /\ loading (state (page x)) = true.

(** *** The network between the page and the relay *)

(** [fetch('/api/analyze', ...)] answered by the route handler: the
    handler's [request.json()] is the value the page serialised, and the
    page's [response.json()] is the body the handler gave to
    [NextResponse.json]; [response.ok] is a status from 200 to 299.  A
    request that does not get through is the [inl] outcome of [fetch] and
    not this function. *)
Definition relay (openai : OpenAI) (request : FetchRequest)
  : list Effect * FetchResponse :=
  let '(trace, response) := POST openai {| json := inr (payload request) |} in
  (trace,
   {| ok := ((200 <=? status response) && (status response <=? 299))%nat;
      response_json := inr (body response) |}).

End Analyze.

(** Counting what the page has asked of the camera. *)
Module Camera.
Import Page.

Definition is_getUserMedia (c : Call) : bool :=
  match c with getUserMedia _ => true | _ => false end.

(** How often [getUserMedia] has been called. *)
Definition camera_requests (w : World) : nat :=
  length (filter is_getUserMedia (calls w)).

(** What the HTML Standard asks of [toDataURL] on a canvas without pixels:
    the string ["data:,"]. *)
Definition serialises_empty (browser : Browser) : Prop :=
  forall canvas : HTMLCanvasElement,
    width canvas = 0 \/ height canvas = 0 ->
    toDataURL browser canvas "image/png" = "data:,".

End Camera.

(** More concrete worlds. *)
Module Cases.
Import Js Route Page Scenario Analyze.

(** A browser without [navigator.mediaDevices]. *)
Definition without_camera : Browser :=
  {| has_getUserMedia := false;
     getContext_2d := getContext_2d desktop;
     toDataURL := toDataURL desktop |}.

(** The camera is running over a page that still shows an earlier
    verdict and an earlier error. *)
Definition filming_again : World :=
  setError (Some "Failed to analyze image")
    (setResult (Some "Sim. Produto vegano.")
       (setImage (Some "data:image/png;base64,AAAA") filming)).

Definition AbortError : thrown :=
  Err "AbortError" "The play() request was interrupted by a new load request.".

(** A browser that hands out the stream and then rejects [play()] once the
    overlay has been cancelled. *)
Definition cancel_while_loading : list Event :=
  [ click_camera_button;
    getUserMedia_settles 0 (inr (camera_stream 1));
    click_cancel;
    play_settles 0 (Some AbortError) ].

(** The overlay was cancelled while the video was still loading stream 1:
    the play promise of invocation 0 is pending on an element that is
    gone. *)
Definition cancelled_while_loading : World :=
  {| state := {| image := None; loading := false; result := None; error := None;
                 showCamera := false; cameraError := None |};
     videoRef := None; streamRef := None; mounted := true;
     pending := [(0, AwaitPlay (camera_stream 1) 0)]; next_task := 1; next_video := 1;
     calls := [getUserMedia constraints]; acquired := [camera_stream 1] |}.

(** A photo is on the page and the camera is closed. *)
Definition with_photo : World :=
  setImage (Some "data:image/png;base64,iVBORw0KGgo=") initial.

(** A stand-in for [Number.prototype.toString], for examples in which no
    number is turned into text. *)
Definition decimal (x : number) : string :=
  match x with
  | S754_zero _ => "0"
  | _ => "1"
  end.

End Cases.

(* ===================================================================== *)
(** ** The relay                                                          *)
(* ===================================================================== *)

Import Js.

Section RelayFacts.
Import Route.

Lemma split_nonempty (sep : ascii) (s : string) :
  exists head tail, split sep s = head :: tail.
Proof.
  destruct s as [|c rest]; simpl.
  - now exists "", [].
  - destruct (Ascii.eqb c sep).
    + now exists "", (split sep rest).
    + destruct (split sep rest) as [|piece pieces].
      * now exists (String c ""), [].
      * now exists (String c piece), pieces.
Qed.

Lemma includes_In (arr : list string) (x : option string) :
  includes arr x = true <-> exists s, x = Some s /\ In s arr.
Proof.
  destruct x as [s|]; simpl.
  - rewrite existsb_exists. split.
    + intros (y & Hin & Heq). apply String.eqb_eq in Heq. subst y. now exists s.
    + intros (y & Heq & Hin). injection Heq as Heq. subst y. exists s.
      split; [assumption|]. apply String.eqb_refl.
  - split; [discriminate|]. now intros (s & Heq & _).
Qed.

Lemma truthy_Str (s : string) : truthy (Str s) = true <-> s <> "".
Proof.
  simpl. destruct (String.eqb_spec s ""); simpl; split; congruence.
Qed.

Lemma get_Str_destructure (parsed : value) (key s : string) :
  get parsed key = Str s -> destructure parsed key = inr (Str s).
Proof.
  destruct parsed; simpl; try discriminate. now intros ->.
Qed.

(** The body is not JSON. *)
Lemma POST_unparsed (openai : OpenAI) (request : Request) (cause : thrown) :
  json request = inl cause ->
  POST openai request = ([ConsoleError "Error analyzing image:" cause], analysis_failed).
Proof. intros H. unfold POST, POST_try. now rewrite H. Qed.

(** The body is [null]. *)
Lemma POST_undestructurable (openai : OpenAI) (request : Request) (parsed : value)
      (cause : thrown) :
  json request = inr parsed ->
  destructure parsed "image" = inl cause ->
  POST openai request = ([ConsoleError "Error analyzing image:" cause], analysis_failed).
Proof. intros H D. unfold POST, POST_try. rewrite H. cbn. now rewrite D. Qed.

Lemma POST_falsy (openai : OpenAI) (request : Request) (parsed image : value) :
  json request = inr parsed ->
  destructure parsed "image" = inr image ->
  truthy image = false ->
  POST openai request = ([], missing_input).
Proof. intros H D T. unfold POST, POST_try. rewrite H. cbn. rewrite D. cbn. now rewrite T. Qed.

Lemma POST_not_a_string (openai : OpenAI) (request : Request) (parsed image : value) :
  json request = inr parsed ->
  destructure parsed "image" = inr image ->
  truthy image = true ->
  (forall s, image <> Str s) ->
  POST openai request
  = ([ConsoleError "Error analyzing image:" (TypeError "image.split is not a function")],
     analysis_failed).
Proof.
  intros H D T N. unfold POST, POST_try. rewrite H. cbn. rewrite D. cbn. rewrite T. cbn.
  destruct image; try reflexivity. now elim (N s).
Qed.

(** What the handler does with a non-empty string, path by path. *)
Lemma POST_string (openai : OpenAI) (request : Request) (parsed : value) (image : string) :
  json request = inr parsed ->
  get parsed "image" = Str image ->
  image <> "" ->
  POST openai request =
  if includes SUPPORTED_FORMATS (mimeType_of image) then
    let req := analysis_request (mimeType_of image) (base64_of image) in
    match openai req with
    | inl cause =>
        ([ModelCall req; ConsoleError "Error analyzing image:" cause], analysis_failed)
    | inr response =>
        match choices response with
        | choice :: _ =>
            ([ModelCall req], NextResponse_json (result_body (message_content choice)) 200)
        | [] =>
            ([ModelCall req;
              ConsoleError "Error analyzing image:"
                (TypeError "Cannot read properties of undefined (reading 'message')")],
             analysis_failed)
        end
    end
  else ([], unsupported_format).
Proof.
  intros H G N. apply truthy_Str in N. apply get_Str_destructure in G.
  unfold POST, POST_try. rewrite H. cbn [await bind]. rewrite G. cbn [await bind].
  rewrite N. cbn [negb call_split ret bind].
  unfold mimeType_of, base64_of.
  destruct (split_nonempty ";" image) as (head & tail & E). rewrite E.
  change (nth_error (head :: tail) 0) with (Some head).
  cbn [split_of ret bind app].
  set (mimeType := nth_error (split ":" head) 1).
  set (base64Image := nth_error (split "," image) 1).
  destruct (includes SUPPORTED_FORMATS mimeType); cbn [negb].
  - cbn [emit bind ret app await].
    destruct (openai _) as [cause|response]; cbn [try_catch app]; [reflexivity|].
    unfold first_content. destruct (choices response); reflexivity.
  - reflexivity.
Qed.

End RelayFacts.

Section RelayClaims.
Import Route Scenario.

Lemma split_without_separator (sep : ascii) (s : string) :
  has_char sep s = false -> split sep s = [s].
Proof.
  induction s as [|c rest IH]; simpl; [reflexivity|].
  intros H. apply orb_false_iff in H as [Hc Hrest].
  rewrite Hc, (IH Hrest). reflexivity.
Qed.

Lemma truthy_get_destructure (parsed : value) (key : string) :
  truthy (get parsed key) = true -> destructure parsed key = inr (get parsed key).
Proof. destruct parsed; simpl; try discriminate; reflexivity. Qed.

(** A handler trace that contains a model call belongs to a request whose
    image is a non-empty string with a supported MIME type. *)
Lemma model_call_inversion (openai : OpenAI) (request : Request) (req : ChatRequest) :
  In (ModelCall req) (fst (POST openai request)) ->
  exists parsed image,
    json request = inr parsed /\ get parsed "image" = Str image /\ image <> ""
    /\ includes SUPPORTED_FORMATS (mimeType_of image) = true
    /\ req = analysis_request (mimeType_of image) (base64_of image).
Proof.
  intros Hin.
  destruct (json request) as [cause|parsed] eqn:J.
  { rewrite (POST_unparsed _ _ _ J) in Hin. simpl in Hin.
    destruct Hin as [H|[]]; discriminate. }
  destruct (destructure parsed "image") as [cause|image] eqn:D.
  { rewrite (POST_undestructurable _ _ _ _ J D) in Hin. simpl in Hin.
    destruct Hin as [H|[]]; discriminate. }
  destruct (truthy image) eqn:T.
  2:{ rewrite (POST_falsy _ _ _ _ J D T) in Hin. destruct Hin. }
  assert (G : get parsed "image" = image).
  { destruct parsed; simpl in D; try discriminate; now injection D. }
  destruct image as [| |b|x|s|items|props];
    try (rewrite (POST_not_a_string openai _ _ _ J D T) in Hin by discriminate;
         simpl in Hin; destruct Hin as [H|[]]; discriminate).
  apply truthy_Str in T.
  rewrite (POST_string openai _ _ _ J G T) in Hin.
  exists parsed, s. repeat split; try assumption.
  - destruct (includes SUPPORTED_FORMATS (mimeType_of s)); [reflexivity|destruct Hin].
  - destruct (includes SUPPORTED_FORMATS (mimeType_of s)); [|destruct Hin].
    cbv zeta in Hin.
    destruct (openai _) as [cause|response]; [|destruct (choices response)];
      simpl in Hin; intuition congruence.
Qed.

(** C1, as it is written, fails on the body [null]: it has no [image]
    field, destructuring it throws, and the catch-all answers 500 instead
    of 400 (still without calling the model). *)
Lemma null_body_is_not_missing_input :
  get Null "image" = Undefined
  /\ snd (POST (answering "Sim.") {| json := inr Null |})
     = {| status := 500; body := Obj [("error", Str "Failed to analyze image")] |}
  /\ status (snd (POST (answering "Sim.") {| json := inr Null |})) <> 400
  /\ model_calls (fst (POST (answering "Sim.") {| json := inr Null |})) = 0.
Proof. repeat split. discriminate. Qed.

(** C1, amended.  A body that is JSON and whose [image] field is absent or
    the empty string is answered with 400 and
    [{ error: "No image provided" }] when it is any value other than
    [null]; the body [null] is answered with 500 and
    [{ error: "Failed to analyze image" }], the exception being logged.  In
    both cases the trace of the handler contains no call to the model. *)
Theorem analyze_missing_input :
  forall (openai : OpenAI) (request : Request) (parsed : value),
    json request = inr parsed ->
    get parsed "image" = Undefined \/ get parsed "image" = Str "" ->
    (parsed <> Null -> parsed <> Undefined ->
     POST openai request
     = ([], {| status := 400; body := Obj [("error", Str "No image provided")] |})
     /\ model_calls (fst (POST openai request)) = 0)
    /\ (parsed = Null \/ parsed = Undefined ->
        (exists cause,
            POST openai request
            = ([ConsoleError "Error analyzing image:" cause],
               {| status := 500; body := Obj [("error", Str "Failed to analyze image")] |}))
        /\ model_calls (fst (POST openai request)) = 0).
Proof.
  intros openai request parsed J Himage. split.
  - intros N1 N2.
    assert (D : destructure parsed "image" = inr (get parsed "image")).
    { destruct parsed; simpl; congruence. }
    assert (T : truthy (get parsed "image") = false).
    { destruct Himage as [-> | ->]; reflexivity. }
    rewrite (POST_falsy openai _ _ _ J D T). split; reflexivity.
  - intros N.
    assert (D : exists cause, destructure parsed "image" = inl cause).
    { destruct N as [-> | ->]; eexists; reflexivity. }
    destruct D as (cause & D).
    rewrite (POST_undestructurable openai _ _ _ J D).
    split; [now exists cause|reflexivity].
Qed.

Lemma analyze_missing_input_witness :
  POST (answering "Sim.") {| json := inr (Obj [("image", Str "")]) |}
  = ([], {| status := 400; body := Obj [("error", Str "No image provided")] |})
  /\ model_calls (fst (POST (answering "Sim.") {| json := inr (Obj [("image", Str "")]) |})) = 0.
Proof.
  refine (proj1 (analyze_missing_input (answering "Sim.")
                   {| json := inr (Obj [("image", Str "")]) |}
                   (Obj [("image", Str "")]) eq_refl (or_intror eq_refl)) _ _).
  - discriminate.
  - discriminate.
Defined.

(** C2.  A body whose [image] is a non-empty string, with a MIME type read
    off it that is none of the four supported ones, is answered with 400
    and a message that lists exactly [image/png, image/jpeg, image/gif,
    image/webp]; the model is not called.  The payload check comes first:
    the empty string, whose MIME type is not supported either, gets the
    missing-input answer.  [data:image/bmp;base64,AAAA] is such a body. *)
Theorem analyze_unsupported_format :
  forall (openai : OpenAI) (request : Request) (parsed : value),
    json request = inr parsed ->
    (forall image : string,
        get parsed "image" = Str image ->
        image <> "" ->
        (forall m, mimeType_of image = Some m -> ~ In m Route.SUPPORTED_FORMATS) ->
        POST openai request
        = ([], {| status := 400;
                  body := Obj [("error", Str "Unsupported image format. Please use one of: image/png, image/jpeg, image/gif, image/webp")] |}))
    /\ (get parsed "image" = Str "" ->
        (forall m, mimeType_of "" = Some m -> ~ In m Route.SUPPORTED_FORMATS)
        /\ POST openai request = ([], missing_input))
    /\ (get parsed "image" = Str "data:image/bmp;base64,AAAA" ->
        mimeType_of "data:image/bmp;base64,AAAA" = Some "image/bmp"
        /\ POST openai request = ([], unsupported_format)
        /\ status unsupported_format = 400).
Proof.
  intros openai request parsed J. split; [|split].
  - intros image G N Hmime.
    rewrite (POST_string openai _ _ _ J G N).
    destruct (includes Route.SUPPORTED_FORMATS (mimeType_of image)) eqn:I; [|reflexivity].
    apply includes_In in I as (m & Hm & Hin). now elim (Hmime m Hm).
  - intros G. split; [discriminate|].
    apply (POST_falsy openai _ _ _ J (get_Str_destructure _ _ _ G)). reflexivity.
  - intros G. split; [reflexivity|]. split; [|reflexivity].
    rewrite (POST_string openai _ _ _ J G) by discriminate. reflexivity.
Qed.

Lemma analyze_unsupported_format_witness :
  POST unreachable (post (Str "data:image/bmp;base64,AAAA"))
  = ([], {| status := 400;
            body := Obj [("error", Str "Unsupported image format. Please use one of: image/png, image/jpeg, image/gif, image/webp")] |}).
Proof.
  refine (proj1 (analyze_unsupported_format unreachable
                   (post (Str "data:image/bmp;base64,AAAA"))
                   (Obj [("image", Str "data:image/bmp;base64,AAAA")]) _)
                "data:image/bmp;base64,AAAA" _ _ _).
  - reflexivity.
  - reflexivity.
  - discriminate.
  - intros m Hm. injection Hm as <-. simpl. intuition discriminate.
Defined.

(** C3.  A request that passes both checks (its [image] is a non-empty
    string whose MIME type is one of the four) makes the handler call the
    model exactly once, with a single user message made of the fixed prompt
    and of the image as [data:<MIME type>;base64,<data>] (for a well-formed
    data URI that is the image as it came in) and with [max_tokens] 300.
    The prompt asks for a verdict from ingredients, certifications and
    visible labels, for a clear yes or no with a brief explanation, for a
    request to take the photo again when the image cannot be read, and for
    Brazilian Portuguese.  The text the model answers with comes back
    unchanged as [{ result }] with status 200. *)
Theorem analyze_relays_to_model :
  forall (openai : OpenAI) (request : Request) (parsed : value) (image m : string),
    json request = inr parsed ->
    get parsed "image" = Str image ->
    image <> "" ->
    mimeType_of image = Some m ->
    In m Route.SUPPORTED_FORMATS ->
    let req := analysis_request (Some m) (base64_of image) in
    (exists rest, fst (POST openai request) = ModelCall req :: rest)
    /\ model_calls (fst (POST openai request)) = 1
    /\ model req = "gpt-4o"
    /\ messages req
       = [ {| role := "user";
              content := [ text_part PROMPT;
                           image_url_part ("data:" ++ m ++ ";base64,"
                                           ++ to_string (base64_of image)) ] |} ]
    /\ max_tokens req = 300
    /\ (forall data, has_char "," data = false ->
                     image = "data:" ++ m ++ ";base64," ++ data ->
                     messages req
                     = [ {| role := "user";
                            content := [text_part PROMPT; image_url_part image] |} ])
    /\ (mentions PROMPT "tell me if it's vegan" = true
        /\ mentions PROMPT "Consider ingredients, certifications, and any visible labels" = true
        /\ mentions PROMPT "Respond with a clear 'Yes' or 'No' followed by a brief explanation" = true
        /\ mentions PROMPT "If you are not able to read the image content" = true
        /\ mentions PROMPT "the only thing you should say it's to take the photo again" = true
        /\ mentions PROMPT "The answer should always be in brazilian portuguese" = true)
    /\ (forall response choice others text,
           openai req = inr response ->
           choices response = choice :: others ->
           message_content choice = Some text ->
           POST openai request
           = ([ModelCall req], {| status := 200; body := Obj [("result", Str text)] |})).
Proof.
  intros openai request parsed image m J G N Hm Hin req.
  assert (I : includes Route.SUPPORTED_FORMATS (mimeType_of image) = true).
  { apply includes_In. now exists m. }
  pose proof (POST_string openai _ _ _ J G N) as P.
  rewrite I, Hm in P. cbv zeta in P. fold req in P.
  split; [|split; [|split; [|split; [|split; [|split; [|split]]]]]].
  - rewrite P. destruct (openai req) as [cause|response];
      [|destruct (choices response)]; eexists; reflexivity.
  - rewrite P. destruct (openai req) as [cause|response];
      [|destruct (choices response)]; reflexivity.
  - reflexivity.
  - reflexivity.
  - reflexivity.
  - intros data Hdata Himage.
    assert (B : base64_of image = Some data).
    { subst image. unfold base64_of.
      simpl in Hin. destruct Hin as [<-|[<-|[<-|[<-|[]]]]]; cbn;
        rewrite (split_without_separator _ _ Hdata); reflexivity. }
    unfold req. rewrite B. subst image. reflexivity.
  - repeat split; vm_compute; reflexivity.
  - intros response choice others text R C T.
    rewrite P, R, C, T. reflexivity.
Qed.

Lemma analyze_relays_to_model_witness :
  POST (answering "Não. Contém leite.") (post (Str "data:image/jpeg;base64,/9j/4AAQ"))
  = ([ModelCall (analysis_request (Some "image/jpeg") (Some "/9j/4AAQ"))],
     {| status := 200; body := Obj [("result", Str "Não. Contém leite.")] |}).
Proof.
  refine (proj2 (proj2 (proj2 (proj2 (proj2 (proj2 (proj2
            (analyze_relays_to_model (answering "Não. Contém leite.")
               (post (Str "data:image/jpeg;base64,/9j/4AAQ"))
               (Obj [("image", Str "data:image/jpeg;base64,/9j/4AAQ")])
               "data:image/jpeg;base64,/9j/4AAQ" "image/jpeg" _ _ _ _ _)))))))
            {| choices := [ {| message_content := Some "Não. Contém leite." |} ] |}
            {| message_content := Some "Não. Contém leite." |} []
            "Não. Contém leite." _ _ _).
  - reflexivity.
  - reflexivity.
  - discriminate.
  - reflexivity.
  - simpl. right. left. reflexivity.
  - reflexivity.
  - reflexivity.
  - reflexivity.
Defined.

(** C4.  Whenever the handler has called the model and the call fails
    (it rejects, or it resolves to a completion without choices), the
    answer is the fixed 500 response [{ error: "Failed to analyze image" }],
    the same whatever the cause, and the cause is what [console.error] is
    given. *)
Theorem analyze_failure_is_generic :
  forall (openai : OpenAI) (request : Request) (req : ChatRequest),
    In (ModelCall req) (fst (POST openai request)) ->
    (forall cause,
        openai req = inl cause ->
        POST openai request
        = ([ModelCall req; ConsoleError "Error analyzing image:" cause],
           {| status := 500; body := Obj [("error", Str "Failed to analyze image")] |}))
    /\ (forall response,
           openai req = inr response ->
           choices response = [] ->
           exists cause,
             POST openai request
             = ([ModelCall req; ConsoleError "Error analyzing image:" cause],
                {| status := 500; body := Obj [("error", Str "Failed to analyze image")] |})).
Proof.
  intros openai request req Hin.
  destruct (model_call_inversion _ _ _ Hin) as (parsed & image & J & G & N & I & ->).
  pose proof (POST_string openai _ _ _ J G N) as P. rewrite I in P. cbv zeta in P.
  split.
  - intros cause R. rewrite P, R. reflexivity.
  - intros response R C. rewrite P, R, C. eexists. reflexivity.
Qed.

Lemma analyze_failure_is_generic_witness :
  POST unreachable (post (Str "data:image/png;base64,iVBORw0KGgo="))
  = ([ModelCall (analysis_request (Some "image/png") (Some "iVBORw0KGgo="));
      ConsoleError "Error analyzing image:" (Err "APIConnectionError" "Connection error.")],
     {| status := 500; body := Obj [("error", Str "Failed to analyze image")] |}).
Proof.
  refine (proj1 (analyze_failure_is_generic unreachable
                   (post (Str "data:image/png;base64,iVBORw0KGgo="))
                   (analysis_request (Some "image/png") (Some "iVBORw0KGgo=")) _)
                (Err "APIConnectionError" "Connection error.") _).
  - simpl. left. reflexivity.
  - reflexivity.
Defined.

(** C10.  A body that is not JSON, and a body whose [image] is truthy but
    not a string, are both answered with the 500 response
    [{ error: "Failed to analyze image" }] although the model has not been
    called: the handler's trace holds the logged exception and nothing
    else. *)
Theorem analyze_fails_without_model_call :
  forall (openai : OpenAI) (request : Request),
    (forall cause,
        json request = inl cause ->
        POST openai request
        = ([ConsoleError "Error analyzing image:" cause],
           {| status := 500; body := Obj [("error", Str "Failed to analyze image")] |})
        /\ model_calls (fst (POST openai request)) = 0)
    /\ (forall parsed,
           json request = inr parsed ->
           truthy (get parsed "image") = true ->
           (forall s, get parsed "image" <> Str s) ->
           POST openai request
           = ([ConsoleError "Error analyzing image:"
                 (TypeError "image.split is not a function")],
              {| status := 500; body := Obj [("error", Str "Failed to analyze image")] |})
           /\ model_calls (fst (POST openai request)) = 0).
Proof.
  intros openai request. split.
  - intros cause J. rewrite (POST_unparsed openai _ _ J). split; reflexivity.
  - intros parsed J T N.
    rewrite (POST_not_a_string openai _ _ _ J (truthy_get_destructure _ _ T) T N).
    split; reflexivity.
Qed.

Lemma analyze_fails_without_model_call_witness :
  POST (answering "Sim.") (post (Number one))
  = ([ConsoleError "Error analyzing image:" (TypeError "image.split is not a function")],
     {| status := 500; body := Obj [("error", Str "Failed to analyze image")] |})
  /\ model_calls (fst (POST (answering "Sim.") (post (Number one)))) = 0.
Proof.
  refine (proj2 (analyze_fails_without_model_call (answering "Sim.")
                   (post (Number one)))
                (Obj [("image", Number one)]) _ _ _).
  - reflexivity.
  - reflexivity.
  - intros s. discriminate.
Defined.

End RelayClaims.

(* ===================================================================== *)
(** ** The media acquisition component                                    *)
(* ===================================================================== *)

Section PageFacts.
Import Page Scenario.

(** *** Projections through the setters *)

Lemma stop_tracks_calls (stream : MediaStream) (w : World) :
  calls (stop_tracks stream w) = (calls w ++ map track_stop (getTracks stream))%list.
Proof.
  unfold stop_tracks. generalize w. clear w.
  induction (getTracks stream) as [|track tracks IH]; intros w; simpl.
  - now rewrite app_nil_r.
  - rewrite IH. simpl. now rewrite <- app_assoc.
Qed.

Lemma stop_tracks_rest (stream : MediaStream) (w : World) :
  state (stop_tracks stream w) = state w
  /\ videoRef (stop_tracks stream w) = videoRef w
  /\ streamRef (stop_tracks stream w) = streamRef w
  /\ mounted (stop_tracks stream w) = mounted w
  /\ pending (stop_tracks stream w) = pending w
  /\ next_task (stop_tracks stream w) = next_task w
  /\ next_video (stop_tracks stream w) = next_video w
  /\ acquired (stop_tracks stream w) = acquired w.
Proof.
  unfold stop_tracks. generalize w. clear w.
  induction (getTracks stream) as [|track tracks IH]; intros w; simpl.
  - repeat split.
  - destruct (IH (record_call (track_stop track) w)) as (? & ? & ? & ? & ? & ? & ? & ?).
    repeat split; assumption.
Qed.

(** Stopping the tracks only adds to the record of calls. *)
Lemma stop_tracks_eq (stream : MediaStream) (w : World) :
  stop_tracks stream w
  = {| state := state w; videoRef := videoRef w; streamRef := streamRef w;
       mounted := mounted w; pending := pending w; next_task := next_task w;
       next_video := next_video w;
       calls := (calls w ++ map track_stop (getTracks stream))%list;
       acquired := acquired w |}.
Proof.
  pose proof (stop_tracks_calls stream w) as C.
  destruct (stop_tracks_rest stream w) as (? & ? & ? & ? & ? & ? & ? & ?).
  destruct (stop_tracks stream w). simpl in *. congruence.
Qed.

Lemma commit_keeps (w : World) :
  state (commit w) = state w
  /\ streamRef (commit w) = streamRef w
  /\ mounted (commit w) = mounted w
  /\ pending (commit w) = pending w
  /\ next_task (commit w) = next_task w
  /\ calls (commit w) = calls w
  /\ acquired (commit w) = acquired w.
Proof.
  destruct w as [st video stream [|] tasks nt nv cs acq]; unfold commit; simpl;
    [|repeat split].
  destruct (showCamera st); [destruct video|]; repeat split.
Qed.

(** A render after a handler that left [showCamera] alone is a commit. *)
Lemma render_same_showCamera (browser : Browser) (before w : World) :
  showCamera (state w) = showCamera (state before) ->
  render browser before w = commit w.
Proof.
  intros H. unfold render.
  destruct (commit_keeps w) as (S & _). rewrite S, H, Bool.eqb_reflx.
  now destruct (negb (mounted (commit w))).
Qed.

(** *** Suspended tasks *)

Lemma find_task_new (id : nat) (tasks : list (nat * Task)) (t : Task) :
  find_task id tasks = None ->
  find_task id (tasks ++ [(id, t)]) = Some t.
Proof.
  induction tasks as [|[k t'] rest IH]; simpl.
  - now rewrite Nat.eqb_refl.
  - destruct (k =? id)%nat; [discriminate|assumption].
Qed.

Lemma find_task_removed (id : nat) (tasks : list (nat * Task)) :
  find_task id (remove_task id tasks) = None.
Proof.
  induction tasks as [|[k t] rest IH]; simpl; [reflexivity|].
  destruct (k =? id)%nat eqn:E; simpl; [assumption|]. now rewrite E.
Qed.

(** *** [stopCamera] in closed form *)

Lemma stopCamera_eq (w : World) :
  stopCamera w
  = {| state := {| image := image (state w); loading := loading (state w);
                   result := result (state w); error := error (state w);
                   showCamera := false; cameraError := None |};
       videoRef := option_map (set_srcObject None) (videoRef w);
       streamRef := None;
       mounted := mounted w; pending := pending w; next_task := next_task w;
       next_video := next_video w;
       calls := (calls w ++ match streamRef w with
                            | Some stream => map track_stop (getTracks stream)
                            | None => []
                            end)%list;
       acquired := acquired w |}.
Proof.
  unfold stopCamera. destruct (streamRef w) as [stream|] eqn:S.
  - rewrite stop_tracks_eq. destruct (videoRef w); reflexivity.
  - rewrite app_nil_r. destruct w as [st [video|] stream tasks m nt nv cs acq];
      simpl in *; subst; reflexivity.
Qed.

Lemma stopped_after (w : World) (extra : list Call) (track : MediaStreamTrack) :
  In (track_stop track) extra ->
  existsb (fun c => match c with
                    | track_stop t => (track_id t =? track_id track)%nat
                    | _ => false
                    end) (calls w ++ extra) = true.
Proof.
  intros H. apply existsb_exists. exists (track_stop track). split.
  - apply in_or_app. now right.
  - apply Nat.eqb_refl.
Qed.

(** After [stopCamera] the handle is [null] and every track of the stream
    it held has been stopped. *)
Lemma stopCamera_releases (w : World) :
  streamRef (stopCamera w) = None
  /\ forall stream, streamRef w = Some stream -> live (stopCamera w) stream = false.
Proof.
  rewrite stopCamera_eq. split; [reflexivity|].
  intros stream S. unfold live, stopped. cbn [calls]. rewrite S.
  apply negb_false_iff, forallb_forall. intros track Hin.
  apply stopped_after. now apply in_map.
Qed.

(** So does the cleanup that runs when the component unmounts. *)
Lemma unmount_releases (w : World) :
  streamRef (unmount_component w) = None
  /\ forall stream, streamRef w = Some stream -> live (unmount_component w) stream = false.
Proof.
  unfold unmount_component, cleanup. destruct (streamRef w) as [held|] eqn:S.
  - rewrite stop_tracks_eq. split; [reflexivity|].
    intros stream E. injection E as <-. unfold live, stopped. cbn [calls set_mounted set_videoRef set_streamRef].
    apply negb_false_iff, forallb_forall. intros track Hin.
    apply stopped_after. now apply in_map.
  - split; [exact S|discriminate].
Qed.

(** The [catch] block of [startCamera] closes the overlay and does not
    touch [streamRef]. *)
Lemma startCamera_catch_keeps_streamRef (err : thrown) (w : World) :
  streamRef (startCamera_catch err w) = streamRef w
  /\ showCamera (state (startCamera_catch err w)) = false
  /\ calls (startCamera_catch err w) = calls w.
Proof. repeat split. Qed.

Lemma desktop_serialises_png : serialises_png desktop.
Proof.
  intros canvas Hw Hh. unfold desktop. cbn [toDataURL].
  destruct (width canvas); [inversion Hw|].
  destruct (height canvas); [inversion Hh|]. reflexivity.
Qed.

(** The concrete worlds are where the named event sequences lead. *)
Lemma requesting_reached :
  run desktop [click_camera_button] initial = Some requesting.
Proof. reflexivity. Qed.

Lemma filming_reached :
  run desktop [click_camera_button;
               getUserMedia_settles 0 (inr (camera_stream 7));
               play_settles 0 None] initial = Some filming.
Proof. reflexivity. Qed.

Lemma refused_reached :
  run desktop [click_camera_button; getUserMedia_settles 0 (inl NotAllowedError)] initial
  = Some refused.
Proof. reflexivity. Qed.

(** *** The upload pipeline, one event at a time *)

Lemma handleImageUpload_accepts (w : World) (file : File) :
  In (file_type file) Page.SUPPORTED_FORMATS ->
  handleImageUpload (Some file) w
  = spawn (AwaitReader file) (record_call (readAsDataURL file) w).
Proof.
  intros Hin. unfold handleImageUpload.
  assert (I : includes Page.SUPPORTED_FORMATS (Some (file_type file)) = true).
  { apply includes_In. now exists (file_type file). }
  rewrite I. simpl in Hin.
  destruct Hin as [E|[E|[E|[E|[]]]]]; rewrite <- E; reflexivity.
Qed.

Lemma step_accepts_file (browser : Browser) (w : World) (file : File) :
  mounted w = true ->
  In (file_type file) Page.SUPPORTED_FORMATS ->
  step browser (change_file_input (Some file)) w
  = Some (commit (spawn (AwaitReader file) (record_call (readAsDataURL file) w))).
Proof.
  intros M Hin. cbn [step]. rewrite M, (handleImageUpload_accepts w file Hin).
  now rewrite render_same_showCamera.
Qed.

Lemma step_reader_loadend (browser : Browser) (w : World) (id : nat) (file : File)
      (reader_result : option string) :
  find_task id (pending w) = Some (AwaitReader file) ->
  step browser (reader_loadend id reader_result) w
  = Some (commit (reader_onloadend id reader_result
                    (set_pending (remove_task id (pending w)) w))).
Proof.
  intros F. cbn [step]. rewrite F. now rewrite render_same_showCamera.
Qed.

Lemma step_img_load (browser : Browser) (w : World) (id : nat) (url : string) (nw nh : nat) :
  find_task id (pending w) = Some (AwaitImage url) ->
  step browser (img_load id nw nh) w
  = Some (commit (img_onload browser
                    {| src := url; naturalWidth := nw; naturalHeight := nh |}
                    (set_pending (remove_task id (pending w)) w))).
Proof.
  intros F. cbn [step]. rewrite F. rewrite render_same_showCamera; [reflexivity|].
  unfold img_onload. now destruct (getContext_2d browser _).
Qed.

End PageFacts.

Section PageClaims.
Import Page Scenario.

(** C5.  A file whose declared type does not start with [image/] is turned
    down with the invalid-file-type message; a file whose type starts with
    [image/] but is none of the four is turned down with the message that
    names [image/png, image/jpeg, image/gif, image/webp].  The first test
    comes first: [text/plain] fails both and gets the first message.  In
    both cases the handler asks nothing of the browser (no file read, no
    image, no canvas) and leaves no task behind; only [error] changes. *)
Theorem upload_rejects_before_any_work :
  forall (w : World) (file : File),
    (startsWith (file_type file) "image/" = false ->
     ~ In (file_type file) Page.SUPPORTED_FORMATS
     /\ handleImageUpload (Some file) w
        = setError (Some "Por favor, envie um arquivo de imagem") w)
    /\ (startsWith (file_type file) "image/" = true ->
        ~ In (file_type file) Page.SUPPORTED_FORMATS ->
        handleImageUpload (Some file) w
        = setError (Some "Formato de imagem não suportado. Por favor, use um dos seguintes: image/png, image/jpeg, image/gif, image/webp") w)
    /\ (~ In (file_type file) Page.SUPPORTED_FORMATS ->
        calls (handleImageUpload (Some file) w) = calls w
        /\ pending (handleImageUpload (Some file) w) = pending w
        /\ image (state (handleImageUpload (Some file) w)) = image (state w)
        /\ forall browser w',
             step browser (change_file_input (Some file)) w = Some w' ->
             calls w' = calls w /\ pending w' = pending w
             /\ image (state w') = image (state w)).
Proof.
  intros w file.
  assert (A : startsWith (file_type file) "image/" = false ->
              ~ In (file_type file) Page.SUPPORTED_FORMATS).
  { intros P Hin. simpl in Hin.
    destruct Hin as [E|[E|[E|[E|[]]]]]; rewrite <- E in P; discriminate. }
  assert (B : ~ In (file_type file) Page.SUPPORTED_FORMATS ->
              includes Page.SUPPORTED_FORMATS (Some (file_type file)) = false).
  { intros N. destruct (includes _ _) eqn:I; [|reflexivity].
    apply includes_In in I as (m & Hm & Hin). injection Hm as <-. now elim N. }
  assert (C : ~ In (file_type file) Page.SUPPORTED_FORMATS ->
              exists msg, handleImageUpload (Some file) w = setError (Some msg) w).
  { intros N. unfold handleImageUpload.
    destruct (startsWith (file_type file) "image/"); cbn [negb]; [|now eexists].
    rewrite (B N). now eexists. }
  split; [|split].
  - intros P. split; [now apply A|]. unfold handleImageUpload. now rewrite P.
  - intros P N. unfold handleImageUpload. rewrite P, (B N). reflexivity.
  - intros N. destruct (C N) as (msg & E). rewrite E.
    split; [reflexivity|split; [reflexivity|split; [reflexivity|]]].
    intros browser w' S. cbn [step] in S. rewrite E in S.
    destruct (mounted w); [|discriminate]. injection S as <-.
    rewrite render_same_showCamera by reflexivity.
    destruct (commit_keeps (setError (Some msg) w)) as (S1 & _ & _ & S4 & _ & S6 & _).
    rewrite S1, S4, S6. repeat split.
Qed.

Lemma upload_rejects_before_any_work_witness :
  handleImageUpload (Some renamed_text_file) initial
  = setError (Some "Por favor, envie um arquivo de imagem") initial.
Proof.
  refine (proj2 (proj1 (upload_rejects_before_any_work initial renamed_text_file) _)).
  reflexivity.
Defined.

(** C6, as it is written, fails where the browser hands out no 2D context:
    a JPEG of a supported type is read and decoded, and the handler stores
    no image (and reports nothing). *)
Lemma upload_without_canvas_stores_nothing :
  In (file_type jpeg_file) Page.SUPPORTED_FORMATS
  /\ exists w',
       run without_canvas
         [ change_file_input (Some jpeg_file);
           reader_loadend 0 (Some "data:image/jpeg;base64,/9j/4AAQ");
           img_load 0 100 100 ] initial = Some w'
       /\ image (state w') = None
       /\ error (state w') = None.
Proof.
  split.
  - simpl. right. left. reflexivity.
  - eexists. split; [reflexivity|]. split; reflexivity.
Qed.

(** C6, amended.  A file of a supported type is handed to the file reader;
    once it has been read and the image has loaded, the handler sizes a
    canvas to the image's natural dimensions and, if the browser gives a 2D
    context for it, draws the image at the origin and stores what
    [toDataURL('image/png')] returns, clearing [result] and [error]: the
    requested encoding is PNG whatever the type of the file, and in a
    browser that serialises as the HTML Standard says the stored image is a
    [data:image/png;base64,] URL.  Without a 2D context the state is left
    as it was. *)
Theorem upload_normalises_to_png :
  forall (browser : Browser) (w : World) (file : File)
         (reader_result : option string) (nw nh : nat),
    mounted w = true ->
    find_task (next_task w) (pending w) = None ->
    In (file_type file) Page.SUPPORTED_FORMATS ->
    let img := {| src := match reader_result with Some url => url | None => "null" end;
                  naturalWidth := nw; naturalHeight := nh |} in
    let canvas := set_height (img_height img) (set_width (img_width img) new_canvas) in
    exists w',
      run browser [ change_file_input (Some file);
                    reader_loadend (next_task w) reader_result;
                    img_load (next_task w) nw nh ] w = Some w'
      /\ width canvas = nw /\ height canvas = nh
      /\ (getContext_2d browser canvas = true ->
          image (state w')
          = Some (toDataURL browser (drawImage canvas (picture img) 0 0) "image/png")
          /\ result (state w') = None
          /\ error (state w') = None
          /\ (serialises_png browser -> 0 < nw -> 0 < nh ->
              exists url, image (state w') = Some url
                          /\ startsWith url "data:image/png;base64," = true))
      /\ (getContext_2d browser canvas = false -> state w' = state w).
Proof.
  intros browser w file reader_result nw nh M F Hin img canvas.
  set (id := next_task w).
  set (w1 := commit (spawn (AwaitReader file) (record_call (readAsDataURL file) w))).
  assert (P1 : pending w1 = (pending w ++ [(id, AwaitReader file)])%list).
  { unfold w1. now destruct (commit_keeps (spawn (AwaitReader file)
                                (record_call (readAsDataURL file) w))) as (_ & _ & _ & -> & _). }
  assert (S1 : state w1 = state w).
  { unfold w1. now destruct (commit_keeps (spawn (AwaitReader file)
                                (record_call (readAsDataURL file) w))) as (-> & _). }
  set (w2 := commit (reader_onloadend id reader_result
                       (set_pending (remove_task id (pending w1)) w1))).
  assert (P2 : pending w2 = (remove_task id (pending w1) ++ [(id, AwaitImage (src img))])%list).
  { unfold w2. now destruct (commit_keeps (reader_onloadend id reader_result
                                (set_pending (remove_task id (pending w1)) w1)))
      as (_ & _ & _ & -> & _). }
  assert (S2 : state w2 = state w).
  { unfold w2. destruct (commit_keeps (reader_onloadend id reader_result
                            (set_pending (remove_task id (pending w1)) w1))) as (-> & _).
    exact S1. }
  set (w3 := commit (img_onload browser img (set_pending (remove_task id (pending w2)) w2))).
  exists w3. split.
  { cbn [run]. rewrite (step_accepts_file browser w file M Hin). fold w1.
    rewrite (step_reader_loadend browser w1 id file reader_result)
      by (rewrite P1; now apply find_task_new).
    fold w2.
    rewrite (step_img_load browser w2 id (src img) nw nh)
      by (rewrite P2; apply find_task_new, find_task_removed).
    reflexivity. }
  split; [reflexivity|]. split; [reflexivity|].
  assert (S3 : state w3 = state (img_onload browser img
                                   (set_pending (remove_task id (pending w2)) w2))).
  { unfold w3. now destruct (commit_keeps (img_onload browser img
                                (set_pending (remove_task id (pending w2)) w2))) as (-> & _). }
  rewrite S3. unfold img_onload. fold canvas. split.
  - intros C. rewrite C. cbn. repeat split.
    intros Png Hw Hh. eexists. split; [reflexivity|]. now apply Png.
  - intros C. rewrite C. exact S2.
Qed.

Lemma upload_normalises_to_png_witness :
  exists w',
    run desktop [ change_file_input (Some jpeg_file);
                  reader_loadend 0 (Some "data:image/jpeg;base64,/9j/4AAQ");
                  img_load 0 100 100 ] initial = Some w'
    /\ exists url, image (state w') = Some url
                   /\ startsWith url "data:image/png;base64," = true.
Proof.
  destruct (upload_normalises_to_png desktop initial jpeg_file
              (Some "data:image/jpeg;base64,/9j/4AAQ") 100 100)
    as (w' & R & _ & _ & Ok & _).
  - reflexivity.
  - reflexivity.
  - simpl. right. left. reflexivity.
  - exists w'. split; [exact R|].
    destruct (Ok eq_refl) as (_ & _ & _ & Png).
    apply Png; [exact desktop_serialises_png | lia | lia].
Defined.

(** C7, as it is written, fails: with no stream held, [stopCamera] still
    closes the overlay while [getUserMedia] is pending, and still clears the
    camera error that a refused request left on the page. *)
Lemma stopCamera_without_session_changes_state :
  (streamRef requesting = None
   /\ showCamera (state requesting) = true
   /\ showCamera (state (stopCamera requesting)) = false
   /\ stopCamera requesting <> requesting)
  /\ (streamRef refused = None
      /\ cameraError (state refused) <> None
      /\ cameraError (state (stopCamera refused)) = None
      /\ stopCamera refused <> refused).
Proof.
  split; (split; [reflexivity|]).
  - split; [reflexivity|]. split; [reflexivity|]. discriminate.
  - split; [discriminate|]. split; [reflexivity|]. discriminate.
Qed.

(** C7, amended.  [stopCamera] is total (nothing in it throws) and
    idempotent: calling it a second time changes nothing.  With no stream
    held it stops no track and leaves [image], [result] and [error] alone,
    but it does set [showCamera] to [false] and [cameraError] to [null],
    and it detaches the source of the video element, if there is one
    ([srcObject] becomes [null], the element is otherwise the same); it
    leaves the whole state as it was when the overlay was already closed,
    no camera error was set and the video element, if any, had no
    source. *)
Theorem stopCamera_idempotent :
  forall w : World,
    stopCamera (stopCamera w) = stopCamera w
    /\ (streamRef w = None ->
        calls (stopCamera w) = calls w
        /\ streamRef (stopCamera w) = None
        /\ image (state (stopCamera w)) = image (state w)
        /\ result (state (stopCamera w)) = result (state w)
        /\ error (state (stopCamera w)) = error (state w)
        /\ showCamera (state (stopCamera w)) = false
        /\ cameraError (state (stopCamera w)) = None
        /\ videoRef (stopCamera w) = option_map (set_srcObject None) (videoRef w)
        /\ (videoRef w = None -> videoRef (stopCamera w) = None)
        /\ (forall video,
              videoRef w = Some video ->
              exists video',
                videoRef (stopCamera w) = Some video'
                /\ srcObject video' = None
                /\ video_id video' = video_id video
                /\ videoWidth video' = videoWidth video
                /\ videoHeight video' = videoHeight video
                /\ listener video' = listener video))
    /\ (streamRef w = None ->
        showCamera (state w) = false ->
        cameraError (state w) = None ->
        (forall video, videoRef w = Some video -> srcObject video = None) ->
        stopCamera w = w).
Proof.
  intros w. split; [|split].
  - rewrite !stopCamera_eq. cbn. rewrite app_nil_r.
    destruct (videoRef w); reflexivity.
  - intros S. rewrite stopCamera_eq, S. cbn. rewrite app_nil_r.
    do 8 (split; [reflexivity|]). split.
    + now intros ->.
    + intros video ->. eexists. repeat split.
  - intros S C E V. rewrite stopCamera_eq.
    destruct w as [[im lo re er sc ce] video stream m tasks nt nv cs acq].
    cbn in *. subst. rewrite app_nil_r.
    destruct video as [[vid src vw vh li]|]; cbn; [|reflexivity].
    specialize (V _ eq_refl). cbn in V. subst. reflexivity.
Qed.

Lemma stopCamera_idempotent_witness :
  stopCamera initial = initial.
Proof.
  refine (proj2 (proj2 (stopCamera_idempotent initial)) _ _ _ _).
  - reflexivity.
  - reflexivity.
  - reflexivity.
  - intros video H. discriminate H.
Defined.

(** C8 is what the code is after (the effect only opens the camera while
    [streamRef] is empty, and [stopCamera] and the unmount cleanup stop the
    tracks), but an open that is cancelled and repeated while the first
    [getUserMedia] is still pending leaves two invocations of [startCamera]
    in flight.  Here the first one gets its stream and stores it, and the
    second one fails: the overlay is closed with the device-busy message
    while [streamRef] still holds the first stream, whose track was never
    stopped. *)
Theorem overlapping_opens_retain_stream :
  exists w,
    run desktop overlapping_opens initial = Some w
    /\ showCamera (state w) = false
    /\ cameraError (state w)
       = Some "Não foi possível acessar a câmera. A câmera já está em uso por outro aplicativo."
    /\ videoRef w = None
    /\ pending w = []
    /\ streamRef w = Some (camera_stream 1)
    /\ live_streams w = [camera_stream 1].
Proof.
  eexists. split; [vm_compute; reflexivity|]. repeat split.
Qed.

(** When both overlapping requests are granted, the second stream
    overwrites the first in [streamRef]; the first is never stopped, and
    closing the camera afterwards releases the second one only. *)
Lemma overlapping_opens_leak_stream :
  (exists w,
      run desktop overlapping_opens_granted initial = Some w
      /\ streamRef w = Some (camera_stream 2)
      /\ live_streams w = [camera_stream 1; camera_stream 2])
  /\ (exists w,
         run desktop (overlapping_opens_granted ++ [click_cancel]) initial = Some w
         /\ streamRef w = None
         /\ live_streams w = [camera_stream 1]).
Proof.
  split; eexists; (split; [vm_compute; reflexivity|]); split; reflexivity.
Qed.

(** When every open is answered before the next click, the cycles end
    with nothing held and nothing live, and while the second session runs
    only its own stream is live. *)
Example orderly_cycles_release :
  (exists w,
      run desktop (firstn 7 orderly_cycles) initial = Some w
      /\ streamRef w = Some (camera_stream 2)
      /\ live_streams w = [camera_stream 2])
  /\ (exists w,
         run desktop orderly_cycles initial = Some w
         /\ streamRef w = None
         /\ showCamera (state w) = false
         /\ live_streams w = []
         /\ image (state w) = Some "data:image/png;base64,iVBORw0KGgo=").
Proof.
  split; eexists; (split; [vm_compute; reflexivity|]); repeat split.
Qed.

(** An open that is cancelled before the browser answers still acquires
    the stream when the answer comes: the video element is gone, the
    [catch] block reports it, and nobody stops the track. *)
Lemma cancelled_open_leaks_stream :
  exists w,
    run desktop cancelled_open initial = Some w
    /\ showCamera (state w) = false
    /\ cameraError (state w)
       = Some "Não foi possível acessar a câmera. Elemento de vídeo não encontrado"
    /\ streamRef w = None
    /\ live_streams w = [camera_stream 1].
Proof.
  eexists. split; [vm_compute; reflexivity|]. repeat split.
Qed.

(** C9.  Without a video element or without a stream, [capturePhoto] only
    sets [error] to the not-ready message.  With both, it sizes a canvas to
    the video's own width and height; if the browser gives no 2D context it
    only sets [error] to the capture-failed message (the image, the stream
    and the overlay stay as they were, no track is stopped); otherwise it
    draws the frame at the origin, stores what [toDataURL('image/png')]
    returns as the image (a [data:image/png;base64,] URL in a browser that
    serialises as the HTML Standard says) and closes the camera: the tracks
    of the stream are stopped, [streamRef] is [null] and the overlay is
    closed. *)
Theorem capturePhoto_spec :
  forall (browser : Browser) (w : World),
    (videoRef w = None \/ streamRef w = None ->
     capturePhoto browser w = setError (Some "Câmera não está pronta") w)
    /\ (forall video stream,
           videoRef w = Some video ->
           streamRef w = Some stream ->
           let canvas := set_height (videoHeight video)
                           (set_width (videoWidth video) new_canvas) in
           width canvas = videoWidth video
           /\ height canvas = videoHeight video
           /\ (getContext_2d browser canvas = false ->
               capturePhoto browser w
               = setError (Some "Falha ao capturar foto: Não foi possível obter o contexto do canvas")
                   (record_call (createElement "canvas") w))
           /\ (getContext_2d browser canvas = true ->
               let w' := capturePhoto browser w in
               image (state w')
               = Some (toDataURL browser (drawImage canvas (video_frame video) 0 0) "image/png")
               /\ streamRef w' = None
               /\ live w' stream = false
               /\ showCamera (state w') = false
               /\ cameraError (state w') = None
               /\ calls w' = (calls w ++ createElement "canvas"
                                      :: map track_stop (getTracks stream))%list
               /\ (serialises_png browser ->
                   0 < videoWidth video -> 0 < videoHeight video ->
                   exists url, image (state w') = Some url
                               /\ startsWith url "data:image/png;base64," = true))).
Proof.
  intros browser w. split.
  - intros [V|S]; unfold capturePhoto; [now rewrite V|].
    rewrite S. now destruct (videoRef w).
  - intros video stream V S canvas.
    split; [reflexivity|]. split; [reflexivity|]. split.
    + intros C. unfold capturePhoto. rewrite V, S. fold canvas. now rewrite C.
    + intros C w'. unfold w', capturePhoto. rewrite V, S. fold canvas. rewrite C.
      cbn [negb].
      set (shot := setImage _ _).
      assert (Sh : streamRef shot = Some stream) by exact S.
      destruct (stopCamera_releases shot) as (R1 & R2).
      split; [|split; [exact R1|split; [exact (R2 _ Sh)|]]].
      * rewrite stopCamera_eq. reflexivity.
      * rewrite stopCamera_eq. cbn. rewrite S, <- app_assoc.
        split; [reflexivity|split; [reflexivity|split; [reflexivity|]]].
        intros Png Hw Hh. eexists. split; [reflexivity|]. now apply Png.
Qed.

Lemma capturePhoto_spec_witness :
  (exists url, image (state (capturePhoto desktop filming)) = Some url
               /\ startsWith url "data:image/png;base64," = true)
  /\ streamRef (capturePhoto desktop filming) = None
  /\ showCamera (state (capturePhoto desktop filming)) = false.
Proof.
  destruct (proj2 (capturePhoto_spec desktop filming)
              {| video_id := 0; srcObject := Some (camera_stream 7);
                 videoWidth := 1920; videoHeight := 1080; listener := Some 0 |}
              (camera_stream 7) eq_refl eq_refl) as (_ & _ & _ & Ok).
  destruct (Ok eq_refl) as (_ & S & _ & C & _ & _ & Png).
  split; [|split; [exact S|exact C]].
  apply Png; [exact desktop_serialises_png | simpl; lia | simpl; lia].
Defined.

End PageClaims.

(* ===================================================================== *)
(** ** More about the relay                                               *)
(* ===================================================================== *)

Section RelayMore.
Import Route Scenario.

Lemma split_at_separator (sep : ascii) (a rest : string) :
  has_char sep a = false ->
  split sep (a ++ String sep rest) = a :: split sep rest.
Proof.
  induction a as [|c a IH]; simpl.
  - intros _. now rewrite Ascii.eqb_refl.
  - intros H. apply orb_false_iff in H as [Hc Ha].
    rewrite Hc, (IH Ha). reflexivity.
Qed.

Lemma mimeType_of_nonempty (image m : string) :
  mimeType_of image = Some m -> image <> "".
Proof. intros H ->. discriminate H. Qed.

(** X1.  Whatever the request and whatever the model does, the handler
    answers with 200, 400 or 500, and its trace has one of four shapes:
    one model call (200), nothing (400), one logged exception (500), or one
    model call followed by one logged exception (500).  So the model is
    called at most once per request, a 400 never costs a model call, and
    [console.error] is called exactly on the 500 answers. *)
Theorem relay_answer_shapes :
  forall (openai : OpenAI) (request : Request),
    let trace := fst (POST openai request) in
    let response := snd (POST openai request) in
    ((status response = 200 /\ exists req, trace = [ModelCall req])
     \/ (status response = 400 /\ trace = [])
     \/ (response = analysis_failed /\ status response = 500
         /\ exists cause,
              trace = [ConsoleError "Error analyzing image:" cause]
              \/ exists req,
                   trace = [ModelCall req; ConsoleError "Error analyzing image:" cause]))
    /\ model_calls trace <= 1.
Proof.
  intros openai request trace response. unfold trace, response. clear trace response.
  destruct (json request) as [cause|parsed] eqn:J.
  { rewrite (POST_unparsed _ _ _ J). simpl. split; [|unfold model_calls; simpl; lia].
    right. right. repeat split. exists cause. now left. }
  destruct (destructure parsed "image") as [cause|image] eqn:D.
  { rewrite (POST_undestructurable _ _ _ _ J D). simpl. split; [|unfold model_calls; simpl; lia].
    right. right. repeat split. exists cause. now left. }
  destruct (truthy image) eqn:T.
  2:{ rewrite (POST_falsy _ _ _ _ J D T). simpl. split; [|unfold model_calls; simpl; lia]. right. left. now split. }
  assert (G : get parsed "image" = image).
  { destruct parsed; simpl in D; try discriminate; now injection D. }
  destruct image as [| |b|x|s|items|props];
    try (rewrite (POST_not_a_string openai _ _ _ J D T) by discriminate;
         simpl; split; [|unfold model_calls; simpl; lia]; right; right; repeat split; eexists; now left).
  apply truthy_Str in T. rewrite (POST_string openai _ _ _ J G T).
  destruct (includes Route.SUPPORTED_FORMATS (mimeType_of s)).
  - cbv zeta. destruct (openai _) as [cause|completion]; [|destruct (choices completion)];
      simpl; (split; [|unfold model_calls; simpl; lia]).
    + right. right. repeat split. exists cause. right. eexists. reflexivity.
    + right. right. repeat split. eexists. right. eexists. reflexivity.
    + left. split; [reflexivity|]. eexists. reflexivity.
  - simpl. split; [|unfold model_calls; simpl; lia]. right. left. now split.
Qed.

(** X2.  Bodies that carry no usable image.  The JSON body [null] cannot be
    destructured: the handler answers 500 and logs a [TypeError].  Any
    other JSON body that is not an object (a number, a string, an array),
    and any object whose [image] is falsy ([null], [false], [0], [NaN],
    the empty string, or missing), gets the 400 answer
    [{ error: "No image provided" }].  The model is called in neither
    case. *)
Theorem relay_bodies_without_image :
  forall (openai : OpenAI) (request : Request) (parsed : value),
    json request = inr parsed ->
    (parsed = Null ->
     exists cause,
       POST openai request
       = ([ConsoleError "Error analyzing image:" cause],
          {| status := 500; body := Obj [("error", Str "Failed to analyze image")] |}))
    /\ (parsed <> Null -> parsed <> Undefined ->
        (forall props, parsed <> Obj props) \/ truthy (get parsed "image") = false ->
        POST openai request
        = ([], {| status := 400; body := Obj [("error", Str "No image provided")] |})).
Proof.
  intros openai request parsed J. split.
  - intros ->. eexists. now apply (POST_undestructurable openai request Null).
  - intros N1 N2 H.
    assert (D : destructure parsed "image" = inr (get parsed "image")).
    { destruct parsed; simpl; congruence. }
    apply (POST_falsy openai _ _ _ J D).
    destruct H as [H|H]; [|exact H].
    destruct parsed; try reflexivity. now elim (H props).
Qed.

Lemma relay_bodies_without_image_witness :
  POST unreachable {| json := inr (Arr [Str "data:image/png;base64,AAAA"]) |}
  = ([], {| status := 400; body := Obj [("error", Str "No image provided")] |})
  /\ POST unreachable (post (Number (S754_zero false)))
     = ([], {| status := 400; body := Obj [("error", Str "No image provided")] |}).
Proof.
  split.
  - refine (proj2 (relay_bodies_without_image unreachable
                     {| json := inr (Arr [Str "data:image/png;base64,AAAA"]) |}
                     (Arr [Str "data:image/png;base64,AAAA"]) eq_refl) _ _ _).
    + discriminate.
    + discriminate.
    + left. intros props. discriminate.
  - refine (proj2 (relay_bodies_without_image unreachable
                     (post (Number (S754_zero false)))
                     (Obj [("image", Number (S754_zero false))]) eq_refl) _ _ _).
    + discriminate.
    + discriminate.
    + right. reflexivity.
Defined.

(** X3.  Every call the handler ever makes to the model has the same shape:
    model [gpt-4o], [max_tokens] 300, and one user message made of the
    fixed prompt and of a URL that starts with [data:], one of the four
    supported types and [;base64,], whatever the request looked like. *)
Theorem relay_model_calls_are_uniform :
  forall (openai : OpenAI) (request : Request) (req : ChatRequest),
    In (ModelCall req) (fst (POST openai request)) ->
    exists m data,
      In m Route.SUPPORTED_FORMATS
      /\ req = {| model := "gpt-4o";
                  messages :=
                    [ {| role := "user";
                         content := [ text_part PROMPT;
                                      image_url_part ("data:" ++ m ++ ";base64," ++ data) ] |} ];
                  max_tokens := 300 |}.
Proof.
  intros openai request req Hin.
  destruct (model_call_inversion _ _ _ Hin) as (parsed & image & _ & _ & _ & I & ->).
  apply includes_In in I as (m & Hm & HIn).
  exists m, (to_string (base64_of image)). split; [exact HIn|].
  rewrite Hm. reflexivity.
Qed.

Lemma relay_model_calls_are_uniform_witness :
  exists m data,
    In m Route.SUPPORTED_FORMATS
    /\ analysis_request (Some "image/webp") (Some "UklGRg==")
       = {| model := "gpt-4o";
            messages :=
              [ {| role := "user";
                   content := [ text_part PROMPT;
                                image_url_part ("data:" ++ m ++ ";base64," ++ data) ] |} ];
            max_tokens := 300 |}.
Proof.
  apply (relay_model_calls_are_uniform (answering "Sim.")
           (post (Str "blob:image/webp;charset=x,UklGRg==,tail"))).
  simpl. left. reflexivity.
Defined.

(** X4.  An image string with a supported type but no comma in it passes
    both checks: the handler finds no data after the comma, and the URL it
    sends to the model ends in the text [undefined]. *)
Theorem relay_sends_undefined_without_comma :
  forall (openai : OpenAI) (request : Request) (parsed : value) (image m : string),
    json request = inr parsed ->
    get parsed "image" = Str image ->
    mimeType_of image = Some m ->
    In m Route.SUPPORTED_FORMATS ->
    has_char "," image = false ->
    exists rest,
      fst (POST openai request)
      = ModelCall {| model := "gpt-4o";
                     messages :=
                       [ {| role := "user";
                            content := [ text_part PROMPT;
                                         image_url_part ("data:" ++ m ++ ";base64,undefined") ] |} ];
                     max_tokens := 300 |} :: rest.
Proof.
  intros openai request parsed image m J G Hm HIn Hc.
  rewrite (POST_string openai _ _ _ J G (mimeType_of_nonempty _ _ Hm)).
  assert (I : includes Route.SUPPORTED_FORMATS (mimeType_of image) = true).
  { apply includes_In. now exists m. }
  assert (B : base64_of image = None).
  { unfold base64_of. now rewrite (split_without_separator _ _ Hc). }
  rewrite I, Hm, B. cbv zeta.
  destruct (openai _) as [cause|completion]; [|destruct (choices completion)];
    eexists; reflexivity.
Qed.

Lemma relay_sends_undefined_without_comma_witness :
  exists rest,
    fst (POST (answering "Sim.") (post (Str "data:image/png;base64")))
    = ModelCall {| model := "gpt-4o";
                   messages :=
                     [ {| role := "user";
                          content := [ text_part PROMPT;
                                       image_url_part ("data:" ++ "image/png" ++ ";base64,undefined") ] |} ];
                   max_tokens := 300 |} :: rest.
Proof.
  apply (relay_sends_undefined_without_comma (answering "Sim.")
           (post (Str "data:image/png;base64"))
           (Obj [("image", Str "data:image/png;base64")]) "data:image/png;base64").
  - reflexivity.
  - reflexivity.
  - reflexivity.
  - simpl. left. reflexivity.
  - reflexivity.
Defined.

(** X5.  Only what lies between the first and the second comma of the image
    string is forwarded: with a supported type, the URL sent to the model is
    [data:<type>;base64,<second piece>], and neither the text before the
    first comma (beyond its type) nor anything after the second comma
    reaches the model. *)
Theorem relay_forwards_second_piece :
  forall (openai : OpenAI) (request : Request) (parsed : value)
         (head data tail m : string),
    json request = inr parsed ->
    get parsed "image" = Str (head ++ "," ++ data ++ "," ++ tail) ->
    has_char "," head = false ->
    has_char "," data = false ->
    mimeType_of (head ++ "," ++ data ++ "," ++ tail) = Some m ->
    In m Route.SUPPORTED_FORMATS ->
    exists rest,
      fst (POST openai request)
      = ModelCall {| model := "gpt-4o";
                     messages :=
                       [ {| role := "user";
                            content := [ text_part PROMPT;
                                         image_url_part ("data:" ++ m ++ ";base64," ++ data) ] |} ];
                     max_tokens := 300 |} :: rest.
Proof.
  intros openai request parsed head data tail m J G Hh Hd Hm HIn.
  rewrite (POST_string openai _ _ _ J G (mimeType_of_nonempty _ _ Hm)).
  assert (I : includes Route.SUPPORTED_FORMATS
                (mimeType_of (head ++ "," ++ data ++ "," ++ tail)) = true).
  { apply includes_In. now exists m. }
  assert (B : base64_of (head ++ "," ++ data ++ "," ++ tail) = Some data).
  { unfold base64_of.
    change (head ++ "," ++ data ++ "," ++ tail)
      with (head ++ String "," (data ++ String "," tail)).
    now rewrite (split_at_separator _ _ _ Hh), (split_at_separator _ _ _ Hd). }
  rewrite I, Hm, B. cbv zeta.
  destruct (openai _) as [cause|completion]; [|destruct (choices completion)];
    eexists; reflexivity.
Qed.

Lemma relay_forwards_second_piece_witness :
  exists rest,
    fst (POST (answering "Sim.")
           (post (Str ("blob:image/gif;x=y" ++ "," ++ "R0lGODlh" ++ "," ++ "ignored"))))
    = ModelCall {| model := "gpt-4o";
                   messages :=
                     [ {| role := "user";
                          content := [ text_part PROMPT;
                                       image_url_part ("data:" ++ "image/gif" ++ ";base64," ++ "R0lGODlh") ] |} ];
                   max_tokens := 300 |} :: rest.
Proof.
  apply (relay_forwards_second_piece (answering "Sim.")
           (post (Str ("blob:image/gif;x=y" ++ "," ++ "R0lGODlh" ++ "," ++ "ignored")))
           (Obj [("image", Str ("blob:image/gif;x=y" ++ "," ++ "R0lGODlh" ++ "," ++ "ignored"))])
           "blob:image/gif;x=y" "R0lGODlh" "ignored" "image/gif").
  - reflexivity.
  - reflexivity.
  - reflexivity.
  - reflexivity.
  - reflexivity.
  - simpl. right. right. left. reflexivity.
Defined.

(** X6.  When the model resolves with at least one choice, the answer is
    200 with the content of the first choice and the other choices are not
    looked at; a first choice whose content is [null] gives
    [{ result: null }], still with status 200. *)
Theorem relay_returns_first_choice :
  forall (openai : OpenAI) (request : Request) (parsed : value) (image m : string)
         (completion : ChatCompletion) (choice : Choice) (others : list Choice),
    json request = inr parsed ->
    get parsed "image" = Str image ->
    mimeType_of image = Some m ->
    In m Route.SUPPORTED_FORMATS ->
    openai (analysis_request (Some m) (base64_of image)) = inr completion ->
    choices completion = choice :: others ->
    POST openai request
    = ([ModelCall (analysis_request (Some m) (base64_of image))],
       {| status := 200;
          body := Obj [("result", match message_content choice with
                                  | Some text => Str text
                                  | None => Null
                                  end)] |}).
Proof.
  intros openai request parsed image m completion choice others J G Hm HIn R C.
  rewrite (POST_string openai _ _ _ J G (mimeType_of_nonempty _ _ Hm)).
  assert (I : includes Route.SUPPORTED_FORMATS (mimeType_of image) = true).
  { apply includes_In. now exists m. }
  rewrite I, Hm. cbv zeta. rewrite R, C. reflexivity.
Qed.

Lemma relay_returns_first_choice_witness :
  POST (fun _ => inr {| choices := [ {| message_content := None |};
                                     {| message_content := Some "Sim." |} ] |})
       (post (Str "data:image/png;base64,iVBORw0KGgo="))
  = ([ModelCall (analysis_request (Some "image/png") (Some "iVBORw0KGgo="))],
     {| status := 200; body := Obj [("result", Null)] |}).
Proof.
  apply (relay_returns_first_choice
           (fun _ => inr {| choices := [ {| message_content := None |};
                                         {| message_content := Some "Sim." |} ] |})
           (post (Str "data:image/png;base64,iVBORw0KGgo="))
           (Obj [("image", Str "data:image/png;base64,iVBORw0KGgo=")])
           "data:image/png;base64,iVBORw0KGgo=" "image/png"
           {| choices := [ {| message_content := None |};
                           {| message_content := Some "Sim." |} ] |}
           {| message_content := None |} [ {| message_content := Some "Sim." |} ]).
  - reflexivity.
  - reflexivity.
  - reflexivity.
  - simpl. left. reflexivity.
  - reflexivity.
  - reflexivity.
Defined.

End RelayMore.

(* ===================================================================== *)
(** ** More about the camera                                              *)
(* ===================================================================== *)

Section PageMore.
Import Page Scenario Camera Cases.

Lemma commit_idempotent (w : World) : commit (commit w) = commit w.
Proof.
  destruct w as [st video stream [|] tasks nt nv cs acq]; unfold commit; cbn;
    [|reflexivity].
  destruct (showCamera st) eqn:S; [destruct video|]; cbn; rewrite ?S; reflexivity.
Qed.

Lemma commit_closed (w : World) :
  mounted w = true -> showCamera (state w) = false -> videoRef (commit w) = None.
Proof. intros M S. unfold commit. now rewrite M, S. Qed.

(** A render of a world whose overlay is closed is a commit: the camera
    effect has nothing to start. *)
Lemma render_closed (browser : Browser) (before w : World) :
  showCamera (state w) = false -> render browser before w = commit w.
Proof.
  intros S. unfold render.
  destruct (commit_keeps w) as (St & _).
  destruct (negb (mounted (commit w))); [reflexivity|].
  destruct (Bool.eqb _ _); [reflexivity|].
  unfold camera_effect. rewrite St, S. cbn. apply commit_idempotent.
Qed.

Lemma no_requests_in_stops (tracks : list MediaStreamTrack) :
  filter is_getUserMedia (map track_stop tracks) = [].
Proof. induction tracks; simpl; auto. Qed.

Lemma camera_requests_stopCamera (w : World) :
  camera_requests (stopCamera w) = camera_requests w.
Proof.
  rewrite stopCamera_eq. unfold camera_requests. cbn [calls].
  rewrite filter_app. destruct (streamRef w); cbn [filter];
    rewrite ?no_requests_in_stops, app_nil_r; reflexivity.
Qed.

Lemma camera_requests_commit (w : World) :
  camera_requests (commit w) = camera_requests w.
Proof.
  unfold camera_requests. now destruct (commit_keeps w) as (_ & _ & _ & _ & _ & -> & _).
Qed.

Lemma camera_requests_same_calls (w w' : World) :
  calls w' = calls w -> camera_requests w' = camera_requests w.
Proof. unfold camera_requests. now intros ->. Qed.

Lemma camera_requests_recorded (c : Call) (w w' : World) :
  calls w' = (calls w ++ [c])%list ->
  camera_requests w' = camera_requests w + (if is_getUserMedia c then 1 else 0).
Proof.
  unfold camera_requests. intros ->. rewrite filter_app, length_app. cbn.
  now destruct (is_getUserMedia c).
Qed.

(** What a render can add to the calls: nothing, or the one [getUserMedia]
    of the camera effect. *)
Lemma render_requests (browser : Browser) (before w : World) :
  camera_requests (render browser before w) = camera_requests w
  \/ (camera_requests (render browser before w) = S (camera_requests w)
      /\ showCamera (state before) = false
      /\ showCamera (state (render browser before w)) = true
      /\ streamRef w = None
      /\ streamRef (render browser before w) = None
      /\ has_getUserMedia browser = true).
Proof.
  unfold render.
  destruct (commit_keeps w) as (St & Sr & Mo & Pe & Nt & Ca & Ac).
  destruct (negb (mounted (commit w))); [left; apply camera_requests_commit|].
  destruct (Bool.eqb (showCamera (state before)) (showCamera (state (commit w)))) eqn:E;
    [left; apply camera_requests_commit|].
  unfold camera_effect.
  destruct (showCamera (state (commit w))) eqn:S; cbn [andb];
    [|left; now rewrite !camera_requests_commit].
  destruct (streamRef (commit w)) eqn:R; cbn [is_null];
    [left; now rewrite !camera_requests_commit|].
  unfold startCamera.
  destruct (has_getUserMedia browser) eqn:H; cbn [negb].
  - right. rewrite camera_requests_commit.
    destruct (commit_keeps (spawn AwaitGetUserMedia
                (record_call (getUserMedia constraints)
                   (setError None (setCameraError None (commit w))))))
      as (St' & Sr' & _).
    rewrite St', Sr'. cbn.
    split.
    + rewrite filter_app, length_app, Ca. cbn. unfold camera_requests. lia.
    + destruct (showCamera (state before)); [discriminate E|].
      rewrite S, <- Sr, R. repeat split.
  - left. rewrite camera_requests_commit. apply camera_requests_commit.
Qed.

Lemma camera_requests_capturePhoto (browser : Browser) (w : World) :
  camera_requests (capturePhoto browser w) = camera_requests w.
Proof.
  unfold capturePhoto.
  destruct (videoRef w) as [video|]; [|reflexivity].
  destruct (streamRef w) as [stream|]; [|reflexivity].
  destruct (getContext_2d browser _); cbn [negb].
  - rewrite camera_requests_stopCamera.
    now rewrite (camera_requests_recorded (createElement "canvas") w) by reflexivity.
  - now rewrite (camera_requests_recorded (createElement "canvas") w) by reflexivity.
Qed.

Lemma camera_requests_handleImageUpload (file : option File) (w : World) :
  camera_requests (handleImageUpload file w) = camera_requests w.
Proof.
  unfold handleImageUpload. destruct file as [file|]; [|reflexivity].
  destruct (startsWith (file_type file) "image/"); cbn [negb]; [|reflexivity].
  destruct (includes Page.SUPPORTED_FORMATS (Some (file_type file))); cbn [negb];
    [|reflexivity].
  now rewrite (camera_requests_recorded (readAsDataURL file) w) by reflexivity.
Qed.

Lemma camera_requests_with_stream (id : nat) (outcome : thrown + MediaStream) (w : World) :
  camera_requests (startCamera_with_stream id outcome w) = camera_requests w.
Proof.
  unfold startCamera_with_stream. destruct outcome as [err|stream]; [reflexivity|].
  now destruct (videoRef w).
Qed.

(** X9.  The page asks for the camera at most once per event, and only in
    the render in which the overlay goes from closed to open while
    [streamRef] is empty: no other click or callback, and no failure,
    makes it call [getUserMedia] (there is no retry).  The events are all
    those of [step], among them a metadata-and-play promise that settles
    either way after the overlay was closed or the component unmounted. *)
Theorem camera_requested_only_on_opening :
  forall (browser : Browser) (ev : Event) (w w' : World),
    step browser ev w = Some w' ->
    camera_requests w' = camera_requests w
    \/ (camera_requests w' = S (camera_requests w)
        /\ has_getUserMedia browser = true
        /\ showCamera (state w) = false
        /\ showCamera (state w') = true
        /\ streamRef w' = None).
Proof.
  intros browser ev w w' Hstep.
  assert (R : forall x, camera_requests x = camera_requests w ->
                        w' = render browser w x ->
                        camera_requests w' = camera_requests w
                        \/ (camera_requests w' = S (camera_requests w)
                            /\ has_getUserMedia browser = true
                            /\ showCamera (state w) = false
                            /\ showCamera (state w') = true
                            /\ streamRef w' = None)).
  { intros x Hx ->. destruct (render_requests browser w x) as [E|(E & B & A & _ & N & H)].
    - left. congruence.
    - right. rewrite E, Hx. repeat split; assumption. }
  destruct ev as [ | | |file|id outcome|id outcome|id reader_result|id nw nh| ];
    cbn [step] in Hstep.
  - destruct (mounted w); [|discriminate]. injection Hstep as <-.
    refine (R _ _ eq_refl). unfold handleCameraButtonClick.
    destruct (showCamera (state w)); [apply camera_requests_stopCamera|reflexivity].
  - destruct (mounted w && showCamera (state w)); [|discriminate]. injection Hstep as <-.
    refine (R _ _ eq_refl); apply camera_requests_capturePhoto.
  - destruct (mounted w && showCamera (state w)); [|discriminate]. injection Hstep as <-.
    refine (R _ _ eq_refl); apply camera_requests_stopCamera.
  - destruct (mounted w); [|discriminate]. injection Hstep as <-.
    refine (R _ _ eq_refl); apply camera_requests_handleImageUpload.
  - destruct (find_task id (pending w)) as [[ | | | ]|]; try discriminate.
    destruct outcome as [err|stream].
    + injection Hstep as <-. refine (R _ _ eq_refl). reflexivity.
    + destruct (is_acquired stream w); [discriminate|]. injection Hstep as <-.
      refine (R (startCamera_with_stream id (inr stream) _) _ eq_refl).
      now rewrite camera_requests_with_stream.
  - destruct (find_task id (pending w)) as [[ |stream video| | ]|]; try discriminate.
    injection Hstep as <-. refine (R _ _ eq_refl).
    destruct outcome as [err|]; cbn [startCamera_playing]; [reflexivity|].
    destruct (listens id video stream w); [|reflexivity].
    unfold loadedmetadata. cbn. now destruct (videoRef w).
  - destruct (find_task id (pending w)) as [[ | |file| ]|]; try discriminate.
    injection Hstep as <-. refine (R _ _ eq_refl).
    unfold reader_onloadend.
    rewrite (camera_requests_recorded (new_Image _) (set_pending (remove_task id (pending w)) w))
      by reflexivity.
    cbn. rewrite Nat.add_0_r. reflexivity.
  - destruct (find_task id (pending w)) as [[ | | |url]|]; try discriminate.
    injection Hstep as <-. refine (R _ _ eq_refl).
    unfold img_onload.
    destruct (getContext_2d browser _);
      rewrite (camera_requests_recorded (createElement "canvas")
                 (set_pending (remove_task id (pending w)) w)) by reflexivity;
      cbn; rewrite Nat.add_0_r; reflexivity.
  - destruct (mounted w); [|discriminate]. injection Hstep as <-. left.
    unfold unmount_component, cleanup, camera_requests. cbn [calls set_mounted set_videoRef].
    destruct (streamRef w) as [stream|]; [|reflexivity].
    cbn [calls set_streamRef]. rewrite stop_tracks_calls, filter_app, no_requests_in_stops.
    now rewrite app_nil_r.
Qed.

Lemma cancelled_while_loading_reached :
  run desktop [ click_camera_button;
                getUserMedia_settles 0 (inr (camera_stream 1));
                click_cancel ] initial = Some cancelled_while_loading.
Proof. vm_compute. reflexivity. Qed.

Lemma camera_requested_only_on_opening_witness :
  exists w',
    step desktop (play_settles 0 (Some AbortError)) cancelled_while_loading = Some w'
    /\ (camera_requests w' = camera_requests cancelled_while_loading
        \/ (camera_requests w' = S (camera_requests cancelled_while_loading)
            /\ has_getUserMedia desktop = true
            /\ showCamera (state cancelled_while_loading) = false
            /\ showCamera (state w') = true
            /\ streamRef w' = None)).
Proof.
  eexists. split; [reflexivity|].
  apply (camera_requested_only_on_opening desktop (play_settles 0 (Some AbortError))
           cancelled_while_loading).
  reflexivity.
Defined.

(** A play promise that is rejected after the overlay was cancelled runs
    the [catch] block: a message appears although the user cancelled, the
    camera is not asked for again, and the stream that had been handed out
    is never stopped. *)
Example play_rejected_after_cancel :
  exists w,
    run desktop cancel_while_loading initial = Some w
    /\ showCamera (state w) = false
    /\ cameraError (state w)
       = Some "Não foi possível acessar a câmera. The play() request was interrupted by a new load request."
    /\ camera_requests w = 1
    /\ streamRef w = None
    /\ live_streams w = [camera_stream 1].
Proof.
  eexists. split; [vm_compute; reflexivity|]. repeat split.
Qed.

Lemma find_task_after_removal (id : nat) (w : World) :
  find_task id (pending (set_pending (remove_task id (pending w)) w)) = None.
Proof. apply find_task_removed. Qed.

(** X7.  When [getUserMedia] rejects, the overlay is closed and the video
    element unmounted, [streamRef], the image, the result and the error are
    left alone, and nothing more is asked of the browser (no second
    request).  The message depends on the name of the error only for
    [NotAllowedError], [NotFoundError] and [NotReadableError]; any other
    error has its own message appended, and a rejection that is not an
    [Error] at all is shown as [undefined]. *)
Theorem rejected_camera_request :
  forall (browser : Browser) (w : World) (id : nat) (err : thrown),
    find_task id (pending w) = Some AwaitGetUserMedia ->
    exists w',
      step browser (getUserMedia_settles id (inl err)) w = Some w'
      /\ showCamera (state w') = false
      /\ (mounted w = true -> videoRef w' = None)
      /\ streamRef w' = streamRef w
      /\ calls w' = calls w
      /\ find_task id (pending w') = None
      /\ image (state w') = image (state w)
      /\ result (state w') = result (state w)
      /\ error (state w') = error (state w)
      /\ (forall text, err = Err "NotAllowedError" text ->
            cameraError (state w')
            = Some "Não foi possível acessar a câmera. Por favor, certifique-se de que você concedeu permissões para a câmera.")
      /\ (forall text, err = Err "NotFoundError" text ->
            cameraError (state w')
            = Some "Não foi possível acessar a câmera. Nenhuma câmera encontrada no seu dispositivo.")
      /\ (forall text, err = Err "NotReadableError" text ->
            cameraError (state w')
            = Some "Não foi possível acessar a câmera. A câmera já está em uso por outro aplicativo.")
      /\ (forall name text,
            err = Err name text ->
            name <> "NotAllowedError" -> name <> "NotFoundError" ->
            name <> "NotReadableError" ->
            cameraError (state w')
            = Some ("Não foi possível acessar a câmera. " ++ text))
      /\ (err = NonError ->
          cameraError (state w') = Some "Não foi possível acessar a câmera. undefined").
Proof.
  intros browser w id err F.
  set (x := startCamera_catch err (set_pending (remove_task id (pending w)) w)).
  exists (commit x).
  assert (Sx : showCamera (state x) = false) by reflexivity.
  destruct (commit_keeps x) as (St & Sr & Mo & Pe & Nt & Ca & Ac).
  split.
  { cbn [step]. rewrite F. cbn [startCamera_with_stream]. fold x.
    now rewrite render_closed. }
  rewrite St, Sr, Ca, Pe.
  split; [reflexivity|]. split; [intros M; now apply commit_closed|].
  split; [reflexivity|]. split; [reflexivity|].
  split; [apply find_task_after_removal|].
  split; [reflexivity|]. split; [reflexivity|]. split; [reflexivity|].
  split; [intros text ->; reflexivity|].
  split; [intros text ->; reflexivity|].
  split; [intros text ->; reflexivity|].
  split; [|intros ->; reflexivity].
  intros name text -> N1 N2 N3.
  unfold x, startCamera_catch, name_is. cbn.
  apply String.eqb_neq in N1, N2, N3. now rewrite N1, N2, N3.
Qed.

Lemma rejected_camera_request_witness :
  exists w',
    step desktop (getUserMedia_settles 0 (inl NonError)) requesting = Some w'
    /\ showCamera (state w') = false
    /\ cameraError (state w') = Some "Não foi possível acessar a câmera. undefined".
Proof.
  destruct (rejected_camera_request desktop requesting 0 NonError eq_refl)
    as (w' & R & C & _ & _ & _ & _ & _ & _ & _ & _ & _ & _ & _ & U).
  exists w'. split; [exact R|]. split; [exact C|exact (U eq_refl)].
Defined.

(** X8.  In a browser without [navigator.mediaDevices.getUserMedia] the
    camera button cannot open the camera: the click is answered in the same
    turn with the overlay closed again, the API-unavailable message in
    [cameraError], [error] cleared, and nothing asked of the browser. *)
Theorem camera_button_without_camera_api :
  forall (browser : Browser) (w : World),
    has_getUserMedia browser = false ->
    mounted w = true ->
    showCamera (state w) = false ->
    streamRef w = None ->
    exists w',
      step browser click_camera_button w = Some w'
      /\ showCamera (state w') = false
      /\ videoRef w' = None
      /\ streamRef w' = None
      /\ cameraError (state w')
         = Some "Não foi possível acessar a câmera. API de câmera não disponível neste navegador"
      /\ error (state w') = None
      /\ image (state w') = image (state w)
      /\ result (state w') = result (state w)
      /\ calls w' = calls w
      /\ pending w' = pending w.
Proof.
  intros browser w H M S R.
  destruct w as [[im lo re er sc ce] video stream m tasks nt nv cs acq].
  cbn in M, S, R. subst m sc stream.
  destruct video as [video|]; eexists; (split;
    [ cbn [step mounted]; unfold handleCameraButtonClick, render, commit, camera_effect,
        startCamera; cbn; rewrite H; cbn; reflexivity
    | cbn; repeat split ]).
Qed.

Lemma camera_button_without_camera_api_witness :
  exists w',
    step without_camera click_camera_button initial = Some w'
    /\ showCamera (state w') = false
    /\ calls w' = [].
Proof.
  destruct (camera_button_without_camera_api without_camera initial
              eq_refl eq_refl eq_refl eq_refl)
    as (w' & R & C & _ & _ & _ & _ & _ & _ & K & _).
  exists w'. split; [exact R|]. split; [exact C|exact K].
Defined.

Lemma live_same_calls (w w' : World) (stream : MediaStream) :
  calls w' = calls w -> live w' stream = live w stream.
Proof. unfold live, stopped. now intros ->. Qed.

(** X10.  The two ways of closing the camera from the page, the cancel
    button and the camera button while the overlay is open, and the
    unmounting of the component, all end with [streamRef] empty, the video
    element gone and every track of the stream that was held stopped; none
    of them asks for the camera again. *)
Theorem closing_releases_the_camera :
  forall (browser : Browser) (ev : Event) (w w' : World),
    ev = click_cancel
    \/ (ev = click_camera_button /\ showCamera (state w) = true)
    \/ ev = unmount ->
    step browser ev w = Some w' ->
    streamRef w' = None
    /\ videoRef w' = None
    /\ (forall stream, streamRef w = Some stream -> live w' stream = false)
    /\ camera_requests w' = camera_requests w
    /\ (ev <> unmount -> showCamera (state w') = false /\ cameraError (state w') = None).
Proof.
  intros browser ev w w' Hev Hstep.
  assert (Close : mounted w = true -> w' = render browser w (stopCamera w) ->
                  streamRef w' = None /\ videoRef w' = None
                  /\ (forall stream, streamRef w = Some stream -> live w' stream = false)
                  /\ camera_requests w' = camera_requests w
                  /\ showCamera (state w') = false /\ cameraError (state w') = None).
  { intros M ->. rewrite render_closed by (rewrite stopCamera_eq; reflexivity).
    destruct (commit_keeps (stopCamera w)) as (St & Sr & Mo & _ & _ & Ca & _).
    destruct (stopCamera_releases w) as (R1 & R2).
    rewrite Sr, St, camera_requests_commit, camera_requests_stopCamera.
    split; [exact R1|]. split.
    { apply commit_closed; rewrite stopCamera_eq; [exact M|reflexivity]. }
    split.
    { intros stream Hs. rewrite (live_same_calls _ _ _ Ca). now apply R2. }
    rewrite stopCamera_eq. repeat split. }
  destruct Hev as [E|[[E Sc]|E]]; subst ev; cbn [step] in Hstep.
  - destruct (mounted w) eqn:M; [|discriminate].
    destruct (showCamera (state w)); [|discriminate]. injection Hstep as <-.
    destruct (Close eq_refl eq_refl) as (A & B & C & D & E & F).
    repeat split; assumption.
  - destruct (mounted w) eqn:M; [|discriminate]. injection Hstep as <-.
    assert (H : handleCameraButtonClick w = stopCamera w).
    { unfold handleCameraButtonClick. now rewrite Sc. }
    rewrite H in *.
    destruct (Close eq_refl eq_refl) as (A & B & C & D & E & F).
    repeat split; assumption.
  - destruct (mounted w); [|discriminate]. injection Hstep as <-.
    destruct (unmount_releases w) as (R1 & R2).
    split; [exact R1|]. split; [reflexivity|]. split; [exact R2|].
    split; [|intros N; now elim N].
    unfold unmount_component, cleanup, camera_requests. cbn [calls set_mounted set_videoRef].
    destruct (streamRef w) as [stream|]; [|reflexivity].
    cbn [calls set_streamRef]. rewrite stop_tracks_calls, filter_app, no_requests_in_stops.
    now rewrite app_nil_r.
Qed.

Lemma closing_releases_the_camera_witness :
  exists w',
    step desktop click_cancel filming = Some w'
    /\ streamRef w' = None
    /\ live w' (camera_stream 7) = false.
Proof.
  eexists. split; [reflexivity|].
  destruct (closing_releases_the_camera desktop click_cancel filming _
              (or_introl eq_refl) eq_refl) as (A & _ & C & _).
  split; [exact A|]. apply C. reflexivity.
Defined.

(** X11.  A successful capture replaces the image and leaves [result] and
    [error] as they were, so a verdict or an error message that was on the
    page stays there under the new photo; a successful upload clears both
    together with storing the image. *)
Theorem capture_keeps_verdict_upload_clears_it :
  forall (browser : Browser) (w : World),
    (forall video stream,
        videoRef w = Some video ->
        streamRef w = Some stream ->
        getContext_2d browser
          (set_height (videoHeight video) (set_width (videoWidth video) new_canvas)) = true ->
        result (state (capturePhoto browser w)) = result (state w)
        /\ error (state (capturePhoto browser w)) = error (state w)
        /\ image (state (capturePhoto browser w))
           = Some (toDataURL browser
                     (drawImage (set_height (videoHeight video)
                                   (set_width (videoWidth video) new_canvas))
                                (video_frame video) 0 0) "image/png"))
    /\ (forall img,
           getContext_2d browser
             (set_height (img_height img) (set_width (img_width img) new_canvas)) = true ->
           result (state (img_onload browser img w)) = None
           /\ error (state (img_onload browser img w)) = None
           /\ image (state (img_onload browser img w))
              = Some (toDataURL browser
                        (drawImage (set_height (img_height img)
                                      (set_width (img_width img) new_canvas))
                                   (picture img) 0 0) "image/png")).
Proof.
  intros browser w. split.
  - intros video stream V S C. unfold capturePhoto. rewrite V, S, C. cbn [negb].
    rewrite stopCamera_eq. repeat split.
  - intros img C. unfold img_onload. rewrite C. repeat split.
Qed.

Lemma capture_keeps_verdict_upload_clears_it_witness :
  result (state (capturePhoto desktop filming_again)) = Some "Sim. Produto vegano."
  /\ error (state (capturePhoto desktop filming_again)) = Some "Failed to analyze image"
  /\ image (state (capturePhoto desktop filming_again))
     = Some "data:image/png;base64,iVBORw0KGgo=".
Proof.
  exact (proj1 (capture_keeps_verdict_upload_clears_it desktop filming_again)
           {| video_id := 0; srcObject := Some (camera_stream 7);
              videoWidth := 1920; videoHeight := 1080; listener := Some 0 |}
           (camera_stream 7) eq_refl eq_refl eq_refl).
Defined.

End PageMore.

(* ===================================================================== *)
(** ** The analyze action                                                 *)
(* ===================================================================== *)

Section AnalyzeMore.
Import Route Page Scenario Analyze Camera Cases.

(** X12.  Once the request has settled, whatever came back, the handler
    reports exactly one outcome and then clears [loading]: either it calls
    [setResult], which happens only for an [ok] response whose body parsed
    to something other than [null] and then with that body's [result]
    property as it is, or it calls [setError] with a message. *)
Theorem analysis_settles_with_one_outcome :
  forall (Number_toString : number -> string) (outcome : thrown + FetchResponse),
    (exists response data,
        outcome = inr response
        /\ ok response = true
        /\ response_json response = inr data
        /\ data <> Null /\ data <> Undefined
        /\ analyzeImage_settled Number_toString outcome
           = [SetResult (get data "result"); SetLoading false])
    \/ (exists message,
           analyzeImage_settled Number_toString outcome
           = [SetError (Some message); SetLoading false]).
Proof.
  intros Number_toString outcome. unfold analyzeImage_settled, analyzeImage_try.
  destruct outcome as [err|response]; [right; eexists; reflexivity|].
  destruct (response_json response) as [err|data] eqn:B; [right; eexists; reflexivity|].
  destruct (ok response) eqn:O; cbn [negb].
  - destruct data eqn:D; try (right; eexists; reflexivity);
      left; exists response, data; subst data;
      (split; [reflexivity|]); (split; [exact O|]); (split; [exact B|]);
      (split; [discriminate|]); (split; [discriminate|]); reflexivity.
  - right. destruct (member data "error") as [err|e]; [eexists; reflexivity|].
    destruct (ToString _ _) as [err|text]; eexists; reflexivity.
Qed.

(** X13.  Which message a failed analysis puts on the page.  A rejected
    [fetch] or an unreadable body shows the message of the error, or the
    fixed text when what was thrown is not an [Error].  A response that is
    not [ok] shows the [error] string of its body when there is a non-empty
    one, and the fixed fallback when the body is an object, an array or a
    primitive without a truthy [error]; a body that is [null] shows the
    message of the [TypeError] raised by reading [data.error]. *)
Theorem analysis_failure_messages :
  forall (Number_toString : number -> string) (response : FetchResponse),
    (forall name message,
        analyzeImage_settled Number_toString (inl (Err name message))
        = [SetError (Some message); SetLoading false])
    /\ analyzeImage_settled Number_toString (inl NonError)
       = [SetError (Some "Ocorreu um erro"); SetLoading false]
    /\ (forall name message,
           response_json response = inl (Err name message) ->
           analyzeImage_settled Number_toString (inr response)
           = [SetError (Some message); SetLoading false])
    /\ (forall data text,
           ok response = false ->
           response_json response = inr data ->
           get data "error" = Str text -> text <> "" ->
           analyzeImage_settled Number_toString (inr response)
           = [SetError (Some text); SetLoading false])
    /\ (forall data,
           ok response = false ->
           response_json response = inr data ->
           data <> Null -> data <> Undefined ->
           truthy (get data "error") = false ->
           analyzeImage_settled Number_toString (inr response)
           = [SetError (Some "Falha ao analisar a imagem"); SetLoading false])
    /\ (ok response = false ->
        response_json response = inr Null ->
        exists message,
          member Null "error" = inl (Err "TypeError" message)
          /\ analyzeImage_settled Number_toString (inr response)
             = [SetError (Some message); SetLoading false]).
Proof.
  intros Number_toString response. unfold analyzeImage_settled, analyzeImage_try.
  split; [reflexivity|]. split; [reflexivity|].
  split; [intros name message ->; reflexivity|].
  split; [|split].
  - intros data text -> -> G N.
    assert (M : member data "error" = inr (Str text)).
    { destruct data; simpl in G |- *; try discriminate; now rewrite G. }
    cbn [negb]. rewrite M. apply truthy_Str in N. rewrite N. reflexivity.
  - intros data -> -> N1 N2 T.
    assert (M : member data "error" = inr (get data "error")).
    { destruct data; simpl; congruence. }
    cbn [negb]. rewrite M, T. reflexivity.
  - intros -> ->. eexists. split; reflexivity.
Qed.

Lemma analysis_failure_messages_witness :
  analyzeImage_settled decimal
    (inr {| ok := false;
            response_json := inr (Obj [("error", Str "Failed to analyze image")]) |})
  = [SetError (Some "Failed to analyze image"); SetLoading false].
Proof.
  refine (proj1 (proj2 (proj2 (proj2
            (analysis_failure_messages decimal
               {| ok := false;
                  response_json := inr (Obj [("error", Str "Failed to analyze image")]) |}))))
            (Obj [("error", Str "Failed to analyze image")]) "Failed to analyze image"
            eq_refl eq_refl eq_refl _).
  discriminate.
Defined.

Lemma relay_on_string (openai : OpenAI) (image : string) :
  image <> "" ->
  POST openai {| json := inr (Obj [("image", Str image)]) |}
  = if includes Route.SUPPORTED_FORMATS (mimeType_of image) then
      let req := analysis_request (mimeType_of image) (base64_of image) in
      match openai req with
      | inl cause =>
          ([ModelCall req; ConsoleError "Error analyzing image:" cause], analysis_failed)
      | inr completion =>
          match choices completion with
          | choice :: _ =>
              ([ModelCall req], NextResponse_json (result_body (message_content choice)) 200)
          | [] =>
              ([ModelCall req;
                ConsoleError "Error analyzing image:"
                  (TypeError "Cannot read properties of undefined (reading 'message')")],
               analysis_failed)
          end
      end
    else ([], unsupported_format).
Proof.
  intros N. now apply (POST_string openai _ (Obj [("image", Str image)]) image).
Qed.

(** X14.  The page and the relay together.  For a non-empty image the page
    sends one POST to [/api/analyze] with [{ image }] after setting
    [loading] and clearing [error]; the relay calls the model at most once;
    and what the page does with the answer is one of four things: it stores
    the text of the model as it is, it stores [null] (the model gave no
    text), it shows the relay's unsupported-format message, or it shows
    [Failed to analyze image].  The relay's [No image provided] and the
    page's own fallback message never appear, and [loading] is cleared in
    every case. *)
Theorem analysis_through_the_relay :
  forall (Number_toString : number -> string) (openai : OpenAI) (w : World)
         (image : string),
    Page.image (state w) = Some image ->
    image <> "" ->
    let request := {| url := "/api/analyze"; method := "POST";
                      content_type := "application/json";
                      payload := Obj [("image", Str image)] |} in
    let trace := fst (relay openai request) in
    let settled := analyzeImage_settled Number_toString (inr (snd (relay openai request))) in
    analyzeImage w = (Some request, [SetLoading true; SetError None])
    /\ model_calls trace <= 1
    /\ ((exists text,
            settled = [SetResult (Str text); SetLoading false]
            /\ model_calls trace = 1
            /\ exists completion choice others,
                 openai (analysis_request (mimeType_of image) (base64_of image))
                 = inr completion
                 /\ choices completion = choice :: others
                 /\ message_content choice = Some text)
        \/ (settled = [SetResult Null; SetLoading false] /\ model_calls trace = 1)
        \/ (settled
            = [SetError (Some "Unsupported image format. Please use one of: image/png, image/jpeg, image/gif, image/webp");
               SetLoading false]
            /\ trace = [])
        \/ settled = [SetError (Some "Failed to analyze image"); SetLoading false]).
Proof.
  intros Number_toString openai w image I N request trace settled.
  split.
  { unfold analyzeImage. rewrite I. apply String.eqb_neq in N. now rewrite N. }
  unfold trace, settled, relay, request. cbn [payload].
  rewrite (relay_on_string openai image N).
  destruct (includes Route.SUPPORTED_FORMATS (mimeType_of image)).
  - cbv zeta.
    destruct (openai _) as [cause|completion] eqn:R;
      [|destruct (choices completion) as [|choice others] eqn:C].
    + split; [unfold model_calls; simpl; lia|]. right. right. right. reflexivity.
    + split; [unfold model_calls; simpl; lia|]. right. right. right. reflexivity.
    + split; [unfold model_calls; simpl; lia|].
      destruct (message_content choice) as [text|] eqn:T.
      * left. exists text. split; [reflexivity|]. split; [reflexivity|].
        exists completion, choice, others. repeat split; assumption.
      * right. left. split; reflexivity.
  - split; [unfold model_calls; simpl; lia|]. right. right. left. split; reflexivity.
Qed.

Lemma analysis_through_the_relay_witness :
  analyzeImage with_photo
  = (Some {| url := "/api/analyze"; method := "POST";
             content_type := "application/json";
             payload := Obj [("image", Str "data:image/png;base64,iVBORw0KGgo=")] |},
     [SetLoading true; SetError None])
  /\ model_calls
       (fst (relay (answering "Sim.")
               {| url := "/api/analyze"; method := "POST";
                  content_type := "application/json";
                  payload := Obj [("image", Str "data:image/png;base64,iVBORw0KGgo=")] |}))
     <= 1.
Proof.
  destruct (analysis_through_the_relay decimal (answering "Sim.") with_photo
              "data:image/png;base64,iVBORw0KGgo=" eq_refl) as (A & B & _);
    [discriminate|].
  split; [exact A|exact B].
Defined.

Lemma prefix_split (p s : string) :
  String.prefix p s = true -> exists rest, s = p ++ rest.
Proof.
  revert s. induction p as [|c p IH]; intros s H.
  - now exists s.
  - destruct s as [|c' s]; [discriminate|]. simpl in H.
    destruct (Ascii.ascii_dec c c') as [<-|]; [|discriminate].
    destruct (IH s H) as (rest & ->). now exists rest.
Qed.

(** A PNG data URL passes both checks of the relay. *)
Lemma png_url_reaches_model (openai : OpenAI) (w : World) (image : string) :
  Page.image (state w) = Some image ->
  startsWith image "data:image/png;base64," = true ->
  exists request,
    analyzeImage w = (Some request, [SetLoading true; SetError None])
    /\ model_calls (fst (relay openai request)) = 1
    /\ status (snd (POST openai {| json := inr (payload request) |})) <> 400.
Proof.
  intros I P. unfold startsWith in P.
  destruct (prefix_split _ _ P) as (rest & E).
  assert (N : image <> "") by (rewrite E; discriminate).
  assert (M : mimeType_of image = Some "image/png") by (rewrite E; reflexivity).
  eexists. split.
  { unfold analyzeImage. rewrite I. apply String.eqb_neq in N. now rewrite N. }
  unfold relay. cbn [payload]. rewrite (relay_on_string openai image N), M.
  cbn [includes Route.SUPPORTED_FORMATS existsb String.eqb Ascii.eqb Bool.eqb orb].
  cbv zeta.
  destruct (openai _) as [cause|completion]; [|destruct (choices completion)];
    split; try reflexivity; discriminate.
Qed.

(** The string that an empty canvas serialises to is turned down by the
    relay. *)
Lemma empty_url_is_turned_down (openai : OpenAI) (w : World) :
  Page.image (state w) = Some "data:," ->
  exists request,
    analyzeImage w = (Some request, [SetLoading true; SetError None])
    /\ relay openai request
       = ([], {| ok := false;
                 response_json :=
                   inr (Obj [("error", Str "Unsupported image format. Please use one of: image/png, image/jpeg, image/gif, image/webp")]) |}).
Proof.
  intros I. eexists. split.
  - unfold analyzeImage. rewrite I. reflexivity.
  - unfold relay. cbn [payload].
    rewrite (relay_on_string openai "data:,") by discriminate. reflexivity.
Qed.

(** A video without pixels is within reach: after the overlapping opens
    the stream is still held, so reopening the overlay starts no camera,
    the new video element stays blank, and a capture stores ["data:,"]
    without an error. *)
Example blank_capture_after_overlapping_opens :
  exists w,
    run desktop (overlapping_opens ++ [click_camera_button; click_capture]) initial
    = Some w
    /\ image (state w) = Some "data:,"
    /\ error (state w) = None
    /\ streamRef w = None.
Proof.
  eexists. split; [vm_compute; reflexivity|]. repeat split.
Qed.

(** X15.  The two components fit as long as there are pixels.  In a browser
    that serialises canvases as the HTML Standard says, the image stored by
    a successful capture of a video whose width and height are not zero,
    and the image stored by a successful upload of a picture whose width
    and height are not zero, are accepted by the relay: analysing them
    makes the relay call the model exactly once and never answer 400.  A
    capture of a video without pixels stores ["data:,"] without any error,
    and analysing that gets the relay's 400 unsupported-format answer, the
    model not being called. *)
Theorem acquired_images_pass_the_relay :
  forall (browser : Browser) (openai : OpenAI) (w : World),
    (serialises_png browser ->
     forall video stream,
       videoRef w = Some video ->
       streamRef w = Some stream ->
       getContext_2d browser
         (set_height (videoHeight video) (set_width (videoWidth video) new_canvas)) = true ->
       0 < videoWidth video -> 0 < videoHeight video ->
       exists request,
         analyzeImage (capturePhoto browser w)
         = (Some request, [SetLoading true; SetError None])
         /\ model_calls (fst (relay openai request)) = 1
         /\ status (snd (POST openai {| json := inr (payload request) |})) <> 400)
    /\ (serialises_png browser ->
        forall img,
          getContext_2d browser
            (set_height (img_height img) (set_width (img_width img) new_canvas)) = true ->
          0 < img_width img -> 0 < img_height img ->
          exists request,
            analyzeImage (img_onload browser img w)
            = (Some request, [SetLoading true; SetError None])
            /\ model_calls (fst (relay openai request)) = 1
            /\ status (snd (POST openai {| json := inr (payload request) |})) <> 400)
    /\ (serialises_empty browser ->
        forall video stream,
          videoRef w = Some video ->
          streamRef w = Some stream ->
          getContext_2d browser
            (set_height (videoHeight video) (set_width (videoWidth video) new_canvas)) = true ->
          videoWidth video = 0 \/ videoHeight video = 0 ->
          image (state (capturePhoto browser w)) = Some "data:,"
          /\ error (state (capturePhoto browser w)) = error (state w)
          /\ exists request,
               analyzeImage (capturePhoto browser w)
               = (Some request, [SetLoading true; SetError None])
               /\ relay openai request
                  = ([], {| ok := false;
                            response_json :=
                              inr (Obj [("error", Str "Unsupported image format. Please use one of: image/png, image/jpeg, image/gif, image/webp")]) |})).
Proof.
  intros browser openai w. split; [|split].
  - intros Png video stream V S C Hw Hh.
    apply (png_url_reaches_model openai _
             (toDataURL browser
                (drawImage (set_height (videoHeight video)
                              (set_width (videoWidth video) new_canvas))
                           (video_frame video) 0 0) "image/png")).
    + unfold capturePhoto. rewrite V, S, C. cbn [negb]. rewrite stopCamera_eq. reflexivity.
    + now apply Png.
  - intros Png img C Hw Hh.
    apply (png_url_reaches_model openai _
             (toDataURL browser
                (drawImage (set_height (img_height img)
                              (set_width (img_width img) new_canvas))
                           (picture img) 0 0) "image/png")).
    + unfold img_onload. rewrite C. reflexivity.
    + now apply Png.
  - intros Empty video stream V S C Z.
    assert (I : image (state (capturePhoto browser w)) = Some "data:,").
    { unfold capturePhoto. rewrite V, S, C. cbn [negb]. rewrite stopCamera_eq. cbn.
      f_equal. apply Empty. exact Z. }
    split; [exact I|]. split.
    + unfold capturePhoto. rewrite V, S, C. cbn [negb]. rewrite stopCamera_eq. reflexivity.
    + now apply empty_url_is_turned_down.
Qed.

Lemma acquired_images_pass_the_relay_witness :
  exists request,
    analyzeImage (capturePhoto desktop filming)
    = (Some request, [SetLoading true; SetError None])
    /\ model_calls (fst (relay unreachable request)) = 1
    /\ status (snd (POST unreachable {| json := inr (payload request) |})) <> 400.
Proof.
  refine (proj1 (acquired_images_pass_the_relay desktop unreachable filming)
            desktop_serialises_png
            {| video_id := 0; srcObject := Some (camera_stream 7);
               videoWidth := 1920; videoHeight := 1080; listener := Some 0 |}
            (camera_stream 7) eq_refl eq_refl eq_refl _ _).
  - simpl. lia.
  - simpl. lia.
Defined.

(** *** Nothing but [analyzeImage] touches [loading] *)

Lemma loading_commit (w : World) :
  loading (state (commit w)) = loading (state w).
Proof. now destruct (commit_keeps w) as (-> & _). Qed.

Lemma loading_render (browser : Browser) (before w : World) :
  loading (state (render browser before w)) = loading (state w).
Proof.
  unfold render.
  destruct (negb (mounted (commit w))); [apply loading_commit|].
  destruct (Bool.eqb _ _); [apply loading_commit|].
  rewrite loading_commit. unfold camera_effect.
  destruct (showCamera (state (commit w)) && is_null (streamRef (commit w)));
    [|apply loading_commit].
  unfold startCamera. destruct (negb (has_getUserMedia browser)); cbn;
    apply loading_commit.
Qed.

Lemma step_keeps_loading (browser : Browser) (ev : Event) (w w' : World) :
  step browser ev w = Some w' -> loading (state w') = loading (state w).
Proof.
  intros Hstep.
  destruct ev as [ | | |file|id outcome|id outcome|id reader_result|id nw nh| ];
    cbn [step] in Hstep.
  - destruct (mounted w); [|discriminate]. injection Hstep as <-.
    rewrite loading_render. unfold handleCameraButtonClick.
    destruct (showCamera (state w)); [now rewrite stopCamera_eq|reflexivity].
  - destruct (mounted w && showCamera (state w)); [|discriminate]. injection Hstep as <-.
    rewrite loading_render. unfold capturePhoto.
    destruct (videoRef w); [|reflexivity]. destruct (streamRef w); [|reflexivity].
    destruct (negb _); [reflexivity|now rewrite stopCamera_eq].
  - destruct (mounted w && showCamera (state w)); [|discriminate]. injection Hstep as <-.
    rewrite loading_render. now rewrite stopCamera_eq.
  - destruct (mounted w); [|discriminate]. injection Hstep as <-.
    rewrite loading_render. unfold handleImageUpload.
    destruct file as [file|]; [|reflexivity].
    destruct (negb _); [reflexivity|]. destruct (negb _); reflexivity.
  - destruct (find_task id (pending w)) as [[ | | | ]|]; try discriminate.
    destruct outcome as [err|stream].
    + injection Hstep as <-. now rewrite loading_render.
    + destruct (is_acquired stream w); [discriminate|]. injection Hstep as <-.
      rewrite loading_render. cbn. now destruct (videoRef w).
  - destruct (find_task id (pending w)) as [[ |stream video| | ]|]; try discriminate.
    injection Hstep as <-. rewrite loading_render.
    destruct outcome as [err|]; cbn; [reflexivity|].
    destruct (listens id video stream w); [|reflexivity].
    unfold loadedmetadata. cbn. now destruct (videoRef w).
  - destruct (find_task id (pending w)) as [[ | |file| ]|]; try discriminate.
    injection Hstep as <-. now rewrite loading_render.
  - destruct (find_task id (pending w)) as [[ | | |url]|]; try discriminate.
    injection Hstep as <-. rewrite loading_render. unfold img_onload.
    now destruct (getContext_2d browser _).
  - destruct (mounted w); [|discriminate]. injection Hstep as <-.
    unfold unmount_component, cleanup. cbn.
    destruct (streamRef w) as [stream|]; [|reflexivity].
    cbn. now destruct (stop_tracks_rest stream w) as (-> & _).
Qed.

Lemma advance_keeps_one_at_a_time (browser : Browser)
      (Number_toString : number -> string) (a : Action) (x x' : Session) :
  one_at_a_time x ->
  advance browser Number_toString a x = Some x' ->
  one_at_a_time x'.
Proof.
  intros J A. destruct a as [ev| |id outcome]; cbn [advance] in A.
  - destruct (step browser ev (page x)) as [w|] eqn:Hstep; [|discriminate].
    injection A as <-. apply step_keeps_loading in Hstep.
    destruct J as [E|(k & r & E & L)]; [now left|].
    right. exists k, r. cbn. split; [exact E|congruence].
  - destruct (mounted (page x)); [|discriminate].
    unfold analyze_button in A.
    destruct (present (image (state (page x))) && negb (showCamera (state (page x))));
      [|discriminate].
    destruct (loading (state (page x))) eqn:L; [discriminate|].
    assert (E : in_flight x = []).
    { destruct J as [E|(k & r & _ & L')]; [exact E|congruence]. }
    unfold analyzeImage in A.
    destruct (image (state (page x))) as [image|]; [destruct (image =? "")|];
      cbn in A; injection A as <-; cbn; rewrite E.
    + now left.
    + right. do 2 eexists. split; [reflexivity|]. cbn [page]. now rewrite loading_render.
    + now left.
  - destruct (find_request id (in_flight x)) as [r|] eqn:F; [|discriminate].
    injection A as <-. left. cbn.
    destruct J as [E|(k & r' & E & _)]; rewrite E in *; [discriminate F|].
    cbn in F |- *. destruct (k =? id)%nat; [reflexivity|discriminate].
Qed.

Lemma play_keeps_one_at_a_time (browser : Browser)
      (Number_toString : number -> string) (actions : list Action) :
  forall x x',
    one_at_a_time x ->
    play browser Number_toString actions x = Some x' ->
    one_at_a_time x'.
Proof.
  induction actions as [|a rest IH]; intros x x' J P; cbn [play] in P.
  - now injection P as <-.
  - destruct (advance browser Number_toString a x) as [y|] eqn:A; [|discriminate].
    apply (IH y x'); [|exact P].
    now apply (advance_keeps_one_at_a_time browser Number_toString a x y).
Qed.

(** *** The [result] cell and its typed reading *)

Lemma result_commit (w : World) : result (state (commit w)) = result (state w).
Proof. now destruct (commit_keeps w) as (-> & _). Qed.

Lemma result_render (browser : Browser) (before w : World) :
  result (state (render browser before w)) = result (state w).
Proof.
  unfold render.
  destruct (negb (mounted (commit w))); [apply result_commit|].
  destruct (Bool.eqb _ _); [apply result_commit|].
  rewrite result_commit. unfold camera_effect.
  destruct (showCamera (state (commit w)) && is_null (streamRef (commit w)));
    [|apply result_commit].
  unfold startCamera. destruct (negb (has_getUserMedia browser)); cbn;
    apply result_commit.
Qed.

(** Among the camera and upload events, only a picture that loads with a
    2D context stores into [result], and it stores [null]. *)
Lemma step_result (browser : Browser) (ev : Event) (w w' : World) :
  step browser ev w = Some w' ->
  result (state w')
  = if stores_null_result browser ev w then None else result (state w).
Proof.
  intros Hstep.
  destruct ev as [ | | |file|id outcome|id outcome|id reader_result|id nw nh| ];
    cbn [step] in Hstep; cbn [stores_null_result].
  - destruct (mounted w); [|discriminate]. injection Hstep as <-.
    rewrite result_render. unfold handleCameraButtonClick.
    destruct (showCamera (state w)); [now rewrite stopCamera_eq|reflexivity].
  - destruct (mounted w && showCamera (state w)); [|discriminate]. injection Hstep as <-.
    rewrite result_render. unfold capturePhoto.
    destruct (videoRef w); [|reflexivity]. destruct (streamRef w); [|reflexivity].
    destruct (negb _); [reflexivity|now rewrite stopCamera_eq].
  - destruct (mounted w && showCamera (state w)); [|discriminate]. injection Hstep as <-.
    rewrite result_render. now rewrite stopCamera_eq.
  - destruct (mounted w); [|discriminate]. injection Hstep as <-.
    rewrite result_render. unfold handleImageUpload.
    destruct file as [file|]; [|reflexivity].
    destruct (negb _); [reflexivity|]. destruct (negb _); reflexivity.
  - destruct (find_task id (pending w)) as [[ | | | ]|]; try discriminate.
    destruct outcome as [err|stream].
    + injection Hstep as <-. now rewrite result_render.
    + destruct (is_acquired stream w); [discriminate|]. injection Hstep as <-.
      rewrite result_render. cbn. now destruct (videoRef w).
  - destruct (find_task id (pending w)) as [[ |stream video| | ]|]; try discriminate.
    injection Hstep as <-. rewrite result_render.
    destruct outcome as [err|]; cbn; [reflexivity|].
    destruct (listens id video stream w); [|reflexivity].
    unfold loadedmetadata. cbn. now destruct (videoRef w).
  - destruct (find_task id (pending w)) as [[ | |file| ]|]; try discriminate.
    injection Hstep as <-. now rewrite result_render.
  - destruct (find_task id (pending w)) as [[ | | |url]|]; try discriminate.
    injection Hstep as <-. rewrite result_render. unfold img_onload. cbn.
    now destruct (getContext_2d browser _).
  - destruct (mounted w); [|discriminate]. injection Hstep as <-.
    unfold unmount_component, cleanup. cbn.
    destruct (streamRef w) as [stream|]; [|reflexivity].
    cbn. now destruct (stop_tracks_rest stream w) as (-> & _).
Qed.

(** Along every run the [result] field of the page is the typed reading of
    the cell. *)
Lemma play_keeps_result_reading (browser : Browser)
      (Number_toString : number -> string) (actions : list Action) :
  forall x x',
    result (state (page x)) = typed (result_cell x) ->
    play browser Number_toString actions x = Some x' ->
    result (state (page x')) = typed (result_cell x').
Proof.
  induction actions as [|a rest IH]; intros x x' T P; cbn [play] in P.
  - now injection P as <-.
  - destruct (advance browser Number_toString a x) as [y|] eqn:A; [|discriminate].
    apply (IH y x'); [|exact P]. clear IH P.
    destruct a as [ev| |id outcome]; cbn [advance] in A.
    + destruct (step browser ev (page x)) as [w|] eqn:Hstep; [|discriminate].
      injection A as <-. cbn. rewrite (step_result _ _ _ _ Hstep).
      now destruct (stores_null_result browser ev (page x)).
    + destruct (mounted (page x)); [|discriminate].
      destruct (analyze_button (state (page x))) as [[|]|]; try discriminate.
      unfold analyzeImage in A.
      destruct (image (state (page x))) as [image|]; [destruct (image =? "")|];
        cbn in A; injection A as <-; cbn; rewrite result_render; exact T.
    + destruct (find_request id (in_flight x)); [|discriminate].
      injection A as <-. cbn [page result_cell]. rewrite result_render.
      unfold analyzeImage_settled.
      destruct (analyzeImage_try Number_toString outcome); cbn; [exact T|reflexivity].
Qed.

(** An [ok] response whose [result] is a number is an answer like any
    other: the number goes into the cell and [loading] is cleared. *)
Example number_as_result :
  exists x,
    play desktop decimal
      [ on_page (change_file_input (Some jpeg_file));
        on_page (reader_loadend 0 (Some "data:image/jpeg;base64,/9j/4AAQ"));
        on_page (img_load 0 100 100);
        click_analyze;
        fetch_settles 0 (inr {| ok := true;
                                response_json := inr (Obj [("result", Number one)]) |}) ]
      start = Some x
    /\ result_cell x = Number one
    /\ result (state (page x)) = None
    /\ loading (state (page x)) = false
    /\ in_flight x = [].
Proof.
  eexists. split; [vm_compute; reflexivity|]. repeat split.
Qed.

(** The analyze button and the answers to its requests never make the page
    ask for the camera. *)
Lemma analyze_actions_request_no_camera (browser : Browser)
      (Number_toString : number -> string) (a : Action) (x x' : Session) :
  advance browser Number_toString a x = Some x' ->
  (forall ev, a <> on_page ev) ->
  camera_requests (page x') = camera_requests (page x).
Proof.
  intros A N. destruct a as [ev| |id outcome]; cbn [advance] in A.
  - now elim (N ev).
  - destruct (mounted (page x)); [|discriminate].
    destruct (analyze_button (state (page x))) as [[|]|]; try discriminate.
    unfold analyzeImage in A.
    destruct (image (state (page x))) as [image|]; [destruct (image =? "")|];
      cbn in A; injection A as <-; cbn [page];
      rewrite render_same_showCamera by reflexivity;
      now rewrite camera_requests_commit.
  - destruct (find_request id (in_flight x)); [|discriminate].
    injection A as <-. cbn [page].
    unfold analyzeImage_settled.
    destruct (analyzeImage_try Number_toString outcome); cbn;
      rewrite render_same_showCamera by reflexivity;
      now rewrite camera_requests_commit.
Qed.

(** X16.  At most one analysis is in flight at any time.  Whatever the user
    clicks and whatever the browser and the network answer, in whatever
    order, the page never has two requests to [/api/analyze] outstanding,
    and while one is outstanding [loading] is set, so that the analyze
    button, if it is on the page, is disabled.  A run is any sequence of
    actions that can happen: [play] turns down only a click on a button
    that is not rendered or is disabled, a settlement of something that is
    not pending, a stream handed out twice and a second unmount. *)
Theorem one_analysis_at_a_time :
  forall (browser : Browser) (Number_toString : number -> string)
         (actions : list Action) (x : Session),
    play browser Number_toString actions start = Some x ->
    length (in_flight x) <= 1
    /\ (in_flight x <> [] ->
        loading (state (page x)) = true
        /\ analyze_button (state (page x)) <> Some false
        /\ advance browser Number_toString click_analyze x = None).
Proof.
  intros browser Number_toString actions x P.
  assert (J : one_at_a_time x).
  { apply (play_keeps_one_at_a_time browser Number_toString actions start x);
      [now left|exact P]. }
  destruct J as [E|(id & request & E & L)]; rewrite E.
  - split; [cbn; lia|]. intros N. now elim N.
  - split; [cbn; lia|]. intros _.
    assert (B : analyze_button (state (page x)) <> Some false).
    { unfold analyze_button. rewrite L. now destruct (_ && _). }
    split; [exact L|]. split; [exact B|].
    cbn [advance]. destruct (mounted (page x)); [|reflexivity].
    destruct (analyze_button (state (page x))) as [[|]|]; try reflexivity.
    now elim B.
Qed.

Lemma one_analysis_at_a_time_witness :
  exists x,
    play desktop decimal
      [ on_page (change_file_input (Some jpeg_file));
        on_page (reader_loadend 0 (Some "data:image/jpeg;base64,/9j/4AAQ"));
        on_page (img_load 0 100 100);
        click_analyze ] start = Some x
    /\ length (in_flight x) <= 1
    /\ in_flight x <> []
    /\ loading (state (page x)) = true.
Proof.
  assert (P : exists x,
             play desktop decimal
               [ on_page (change_file_input (Some jpeg_file));
                 on_page (reader_loadend 0 (Some "data:image/jpeg;base64,/9j/4AAQ"));
                 on_page (img_load 0 100 100);
                 click_analyze ] start = Some x
             /\ in_flight x <> []).
  { eexists. split; [vm_compute; reflexivity|]. discriminate. }
  destruct P as (x & P & N). exists x. split; [exact P|].
  destruct (one_analysis_at_a_time desktop decimal _ x P) as (A & B).
  split; [exact A|]. split; [exact N|]. exact (proj1 (B N)).
Defined.

End AnalyzeMore.

(* ===================================================================== *)
(** ** The declared type, the upload before it loads, the opening camera  *)
(* ===================================================================== *)

Section Further.
Import Route Page Scenario Camera Cases.

Lemma has_char_append (c : ascii) (a b : string) :
  has_char c (a ++ b) = has_char c a || has_char c b.
Proof.
  induction a as [|c' a IH]; simpl; [reflexivity|].
  now rewrite IH, orb_assoc.
Qed.

Lemma append_String_assoc (a b : string) (c : ascii) (rest : string) :
  a ++ String c (b ++ rest) = (a ++ String c b) ++ rest.
Proof. induction a as [|c' a IH]; simpl; [reflexivity|now rewrite IH]. Qed.

(** The type the handler reads is the text between the first colon and the
    first semicolon. *)
Lemma mimeType_of_declared (scheme m rest : string) :
  has_char ";" scheme = false -> has_char ":" scheme = false ->
  has_char ";" m = false -> has_char ":" m = false ->
  mimeType_of (scheme ++ ":" ++ m ++ ";" ++ rest) = Some m.
Proof.
  intros S1 S2 M1 M2. unfold mimeType_of.
  change (scheme ++ ":" ++ m ++ ";" ++ rest)
    with (scheme ++ String ":" (m ++ String ";" rest)).
  rewrite append_String_assoc.
  rewrite split_at_separator
    by (rewrite has_char_append; simpl; now rewrite S1, M1).
  cbn [nth_error].
  rewrite (split_at_separator ":" scheme m S2), (split_without_separator ":" m M2).
  reflexivity.
Qed.

(** X17.  The relay decides on the declared type alone: for an image string
    of the form [<scheme>:<type>;<rest>] the model is called exactly when
    [<type>] is literally one of the four supported types, whatever the
    scheme and whatever follows the semicolon; the data are never looked
    at. *)
Theorem relay_checks_the_declared_type_only :
  forall (openai : OpenAI) (request : Request) (parsed : value) (scheme m rest : string),
    json request = inr parsed ->
    get parsed "image" = Str (scheme ++ ":" ++ m ++ ";" ++ rest) ->
    has_char ";" scheme = false -> has_char ":" scheme = false ->
    has_char ";" m = false -> has_char ":" m = false ->
    (In m Route.SUPPORTED_FORMATS ->
     model_calls (fst (POST openai request)) = 1
     /\ status (snd (POST openai request)) <> 400)
    /\ (~ In m Route.SUPPORTED_FORMATS ->
        POST openai request
        = ([], {| status := 400;
                  body := Obj [("error", Str "Unsupported image format. Please use one of: image/png, image/jpeg, image/gif, image/webp")] |})).
Proof.
  intros openai request parsed scheme m rest J G S1 S2 M1 M2.
  pose proof (mimeType_of_declared scheme m rest S1 S2 M1 M2) as Hm.
  rewrite (POST_string openai _ _ _ J G (mimeType_of_nonempty _ _ Hm)), Hm.
  split.
  - intros HIn.
    assert (I : includes Route.SUPPORTED_FORMATS (Some m) = true).
    { apply includes_In. now exists m. }
    rewrite I. cbv zeta.
    destruct (openai _) as [cause|completion]; [|destruct (choices completion)];
      split; try reflexivity; discriminate.
  - intros N.
    destruct (includes Route.SUPPORTED_FORMATS (Some m)) eqn:I; [|reflexivity].
    apply includes_In in I as (m' & E & HIn). injection E as <-. now elim N.
Qed.

Lemma relay_checks_the_declared_type_only_witness :
  POST (answering "Sim.") (post (Str ("data" ++ ":" ++ "image/PNG" ++ ";" ++ "base64,iVBORw0KGgo=")))
  = ([], {| status := 400;
            body := Obj [("error", Str "Unsupported image format. Please use one of: image/png, image/jpeg, image/gif, image/webp")] |}).
Proof.
  refine (proj2 (relay_checks_the_declared_type_only (answering "Sim.")
                   (post (Str ("data" ++ ":" ++ "image/PNG" ++ ";" ++ "base64,iVBORw0KGgo=")))
                   (Obj [("image", Str ("data" ++ ":" ++ "image/PNG" ++ ";" ++ "base64,iVBORw0KGgo="))])
                   "data" "image/PNG" "base64,iVBORw0KGgo="
                   eq_refl eq_refl eq_refl eq_refl eq_refl eq_refl) _).
  simpl. intuition discriminate.
Defined.

(** X18.  Choosing a file of a supported type changes nothing on the page
    until the picture has loaded: after the change event and after the
    reader has finished, image, result and error are what they were, and
    all that is left is the pending load of the image.  When the reader
    ends without a result the picture is given the source text [null];
    there is no handler for a picture that fails to load. *)
Theorem upload_is_silent_until_the_picture_loads :
  forall (browser : Browser) (w : World) (file : File) (reader_result : option string),
    mounted w = true ->
    find_task (next_task w) (pending w) = None ->
    In (file_type file) Page.SUPPORTED_FORMATS ->
    exists w',
      run browser [ change_file_input (Some file);
                    reader_loadend (next_task w) reader_result ] w = Some w'
      /\ state w' = state w
      /\ streamRef w' = streamRef w
      /\ calls w'
         = (calls w ++ [ readAsDataURL file;
                         new_Image match reader_result with
                                   | Some url => url
                                   | None => "null"
                                   end ])%list
      /\ find_task (next_task w) (pending w')
         = Some (AwaitImage match reader_result with
                            | Some url => url
                            | None => "null"
                            end).
Proof.
  intros browser w file reader_result M F Hin.
  set (id := next_task w).
  set (w1 := commit (spawn (AwaitReader file) (record_call (readAsDataURL file) w))).
  destruct (commit_keeps (spawn (AwaitReader file) (record_call (readAsDataURL file) w)))
    as (S1 & R1 & _ & P1 & _ & C1 & _).
  fold w1 in S1, R1, P1, C1.
  set (w2 := commit (reader_onloadend id reader_result
                       (set_pending (remove_task id (pending w1)) w1))).
  destruct (commit_keeps (reader_onloadend id reader_result
                            (set_pending (remove_task id (pending w1)) w1)))
    as (S2 & R2 & _ & P2 & _ & C2 & _).
  fold w2 in S2, R2, P2, C2.
  exists w2. split.
  { cbn [run]. rewrite (step_accepts_file browser w file M Hin). fold w1.
    rewrite (step_reader_loadend browser w1 id file reader_result)
      by (rewrite P1; now apply find_task_new).
    reflexivity. }
  rewrite S2, R2, C2, P2. cbn. rewrite S1, R1, C1. cbn.
  split; [reflexivity|]. split; [reflexivity|]. split.
  - now rewrite <- app_assoc.
  - apply find_task_new, find_task_removed.
Qed.

Lemma upload_is_silent_until_the_picture_loads_witness :
  exists w',
    run desktop [ change_file_input (Some jpeg_file); reader_loadend 0 None ] initial
    = Some w'
    /\ state w' = state initial
    /\ find_task 0 (pending w') = Some (AwaitImage "null").
Proof.
  destruct (upload_is_silent_until_the_picture_loads desktop initial jpeg_file None
              eq_refl eq_refl) as (w' & R & S & _ & _ & P).
  - simpl. right. left. reflexivity.
  - exists w'. split; [exact R|]. split; [exact S|exact P].
Defined.

(** X19.  Opening the camera.  From a mounted page with the overlay closed
    and no stream held, in a browser with the camera API, a click on the
    camera button followed by a granted request and a video that starts
    playing ends with the overlay open, the stream both attached to the
    mounted video element and held in [streamRef], the video's size that of
    the stream's frames, and both error messages cleared; the browser has
    been asked exactly once, for the rear camera at 1920 by 1080. *)
Theorem granted_camera_request_opens_the_camera :
  forall (browser : Browser) (w : World) (stream : MediaStream),
    has_getUserMedia browser = true ->
    mounted w = true ->
    showCamera (state w) = false ->
    streamRef w = None ->
    find_task (next_task w) (pending w) = None ->
    is_acquired stream w = false ->
    exists w' video,
      run browser [ click_camera_button;
                    getUserMedia_settles (next_task w) (inr stream);
                    play_settles (next_task w) None ] w = Some w'
      /\ showCamera (state w') = true
      /\ streamRef w' = Some stream
      /\ videoRef w' = Some video
      /\ srcObject video = Some stream
      /\ videoWidth video = frame_width stream
      /\ videoHeight video = frame_height stream
      /\ cameraError (state w') = None
      /\ error (state w') = None
      /\ image (state w') = image (state w)
      /\ calls w'
         = (calls w ++ [getUserMedia {| facingMode_ideal := "environment";
                                        width_ideal := 1920;
                                        height_ideal := 1080 |}])%list
      /\ acquired w' = (acquired w ++ [stream])%list
      /\ find_task (next_task w) (pending w') = None.
Proof.
  intros browser w stream H M S R F A.
  destruct w as [[im lo re er sc ce] video0 stream0 m tasks nt nv cs acq].
  cbn in M, S, R, F. subst m sc stream0.
  unfold is_acquired in A. cbn [acquired] in A.
  assert (F1 : find_task nt (tasks ++ [(nt, AwaitGetUserMedia)]) = Some AwaitGetUserMedia)
    by now apply find_task_new.
  assert (F2 : forall t, find_task nt
                 (remove_task nt (tasks ++ [(nt, AwaitGetUserMedia)]) ++ [(nt, t)]) = Some t)
    by (intros t; apply find_task_new, find_task_removed).
  assert (F3 : forall t, find_task nt
                 (remove_task nt
                    (remove_task nt (tasks ++ [(nt, AwaitGetUserMedia)]) ++ [(nt, t)])) = None)
    by (intros t; apply find_task_removed).
  destruct video0 as [video0|].
  - eexists. eexists. split.
    { cbn [run step mounted state showCamera streamRef next_task pending].
      unfold handleCameraButtonClick, render, commit, camera_effect, startCamera. cbn.
      rewrite H. cbn. rewrite F1. unfold is_acquired. cbn. rewrite A.
      unfold render, commit, camera_effect. cbn.
      rewrite F2. unfold listens. cbn. rewrite !Nat.eqb_refl. cbn.
      reflexivity. }
    cbn. repeat split. apply F3.
  - eexists. eexists. split.
    { cbn [run step mounted state showCamera streamRef next_task pending].
      unfold handleCameraButtonClick, render, commit, camera_effect, startCamera. cbn.
      rewrite H. cbn. rewrite F1. unfold is_acquired. cbn. rewrite A.
      unfold render, commit, camera_effect. cbn.
      rewrite F2. unfold listens. cbn. rewrite !Nat.eqb_refl. cbn.
      reflexivity. }
    cbn. repeat split. apply F3.
Qed.

Lemma granted_camera_request_opens_the_camera_witness :
  exists w' video,
    run desktop [ click_camera_button;
                  getUserMedia_settles 0 (inr (camera_stream 7));
                  play_settles 0 None ] initial = Some w'
    /\ streamRef w' = Some (camera_stream 7)
    /\ videoRef w' = Some video
    /\ srcObject video = Some (camera_stream 7).
Proof.
  destruct (granted_camera_request_opens_the_camera desktop initial (camera_stream 7)
              eq_refl eq_refl eq_refl eq_refl eq_refl eq_refl)
    as (w' & video & R & _ & S & V & O & _).
  exists w', video. split; [exact R|]. split; [exact S|]. split; [exact V|exact O].
Defined.

End Further.
